(** * Project memory store and tool gateway

    A shallow embedding of [src/nodejs/src/types.ts] (the data model and
    the [MemoryManager] class) and of [src/nodejs/src/server.ts] (the
    [ProjectMemoryServer] tool gateway).

    Conventions of the embedding.
    - A JavaScript string is a [string]: a sequence of 8-bit characters,
      the bytes of its UTF-8 form.  [toLowerCase] maps the letters A-Z to
      a-z and leaves every other character alone; [length] counts
      characters.  For a string of ASCII characters both are those of
      JavaScript.  Beyond ASCII, [toLowerCase] is JavaScript's on the
      strings in which A-Z are the only characters that JavaScript
      changes (a lower-case letter such as the dotless i is left alone by
      both); the lowering of other characters and the length of a
      non-ASCII string are not modelled.
      What is proved of the search is stated through [toLowerCase] and
      [includes] themselves wherever it does not depend on which
      characters [toLowerCase] changes.
    - A JavaScript number that holds a score is a [number]: an exact
      rational, one of the two infinities, or NaN.  Rounding of binary64
      arithmetic is not modelled; division by zero and NaN are.
    - Integer arguments (progress, limit, max_conversation_history) are [Z].
      An integer converts to a string as its decimal digits below 2^53 in
      magnitude ([JS.safe_integer]); the gateway model converts no other.
    - An object used as a map ([Record<string, T>]) is an association list
      of its own properties in enumeration order; its keys are names that
      are neither array indices nor [__proto__].
    - The store is modelled at the types its methods declare.  The
      gateway receives untyped arguments ([JSValue]); a handler is defined
      on the arguments that inhabit the types of the store method it
      calls, and on every argument where it does not reach the store.
      Where it returns without a write and the text it returns is not
      modelled, the text is [Untold].
    - The clock, the id generator and the file system are inputs ([Env]). *)

From Stdlib Require Import Bool List Arith ZArith QArith Lia Lqa.
From Stdlib Require Import Strings.Ascii Strings.String Numbers.DecimalString.
From Stdlib Require Import Sorting.Permutation Sorting.Sorted.
From Stdlib Require Import Structures.OrderedTypeEx.
Import ListNotations.

Set Implicit Arguments.
Set Warnings "-register-all".
Local Open Scope string_scope.
Local Open Scope list_scope.
Local Open Scope bool_scope.

(** String concatenation, the [+] of the source on strings. *)
Infix "+++" := String.append (at level 60, right associativity).

(* ================================================================== *)
(** ** Strings *)

Module Str.

(** One character of [String.prototype.toLowerCase]. *)
Definition lower_ascii (c : ascii) : ascii :=
  let n := nat_of_ascii c in
  if (65 <=? n)%nat && (n <=? 90)%nat then ascii_of_nat (n + 32) else c.

Fixpoint toLowerCase (s : string) : string :=
  match s with
  | EmptyString => EmptyString
  | String c r => String (lower_ascii c) (toLowerCase r)
  end.

(** [s.startsWith(p)]. *)
Fixpoint startsWith (s p : string) {struct p} : bool :=
  match p with
  | EmptyString => true
  | String a p' =>
      match s with
      | EmptyString => false
      | String b s' => Ascii.eqb a b && startsWith s' p'
      end
  end.

(** [s.includes(sub)]: [sub] occurs in [s] at some position. *)
Fixpoint includes (s sub : string) : bool :=
  startsWith s sub ||
  match s with
  | EmptyString => false
  | String _ r => includes r sub
  end.

(** [s.endsWith(p)]. *)
Fixpoint endsWith (s p : string) : bool :=
  String.eqb s p ||
  match s with
  | EmptyString => false
  | String _ r => endsWith r p
  end.

Definition is_space (c : ascii) : bool := Ascii.eqb c " "%char.

(** [s.split(' ')]: the fields between single space characters; never
    empty ([''.split(' ')] is [['']]). *)
Fixpoint split_space (s : string) : list string :=
  match s with
  | EmptyString => [EmptyString]
  | String c r =>
      if is_space c then EmptyString :: split_space r
      else match split_space r with
           | w :: ws => String c w :: ws
           | [] => [String c EmptyString]
           end
  end.

(** [s.replace(/[:.]/g, '-')]. *)
Fixpoint replace_colon_dot (s : string) : string :=
  match s with
  | EmptyString => EmptyString
  | String c r =>
      String (if Ascii.eqb c ":"%char || Ascii.eqb c "."%char then "-"%char else c)
             (replace_colon_dot r)
  end.

(** Decimal rendering of an integer, as [String(n)] gives it. *)
Definition of_Z (z : Z) : string := NilZero.string_of_int (Z.to_int z).

(** Two strings differ only in letter case: same length, and position by
    position the characters are equal once lowered. *)
Fixpoint same_up_to_case (a b : string) : bool :=
  match a, b with
  | EmptyString, EmptyString => true
  | String x a', String y b' =>
      Ascii.eqb (lower_ascii x) (lower_ascii y) && same_up_to_case a' b'
  | _, _ => false
  end.

End Str.

(* ================================================================== *)
(** ** Numbers *)

Module Num.

Inductive number : Type :=
| Fin (q : Q)
| PosInf
| NegInf
| NaN.

Definition zero : number := Fin 0.
Definition ten : number := Fin 10.

Definition isNaN (x : number) : bool :=
  match x with NaN => true | _ => false end.

Definition isFinite (x : number) : bool :=
  match x with Fin _ => true | _ => false end.

(** [x + y]. *)
Definition add (x y : number) : number :=
  match x, y with
  | NaN, _ | _, NaN => NaN
  | Fin a, Fin b => Fin (a + b)
  | PosInf, NegInf | NegInf, PosInf => NaN
  | PosInf, _ | _, PosInf => PosInf
  | NegInf, _ | _, NegInf => NegInf
  end.

Definition neg (x : number) : number :=
  match x with
  | Fin a => Fin (- a)
  | PosInf => NegInf
  | NegInf => PosInf
  | NaN => NaN
  end.

(** [x - y]. *)
Definition sub (x y : number) : number := add x (neg y).

(** [a.length / b.length] for two lengths: [0/0] is NaN, [n/0] is
    Infinity. *)
Definition div_length (a b : nat) : number :=
  match b with
  | O => match a with O => NaN | S _ => PosInf end
  | S _ => Fin (Z.of_nat a # Pos.of_nat b)
  end.

(** Sign of a number the way [Array.prototype.sort] reads a comparator
    result: NaN counts as 0. *)
Definition sign (x : number) : comparison :=
  match x with
  | Fin q => q ?= 0
  | PosInf => Gt
  | NegInf => Lt
  | NaN => Eq
  end%Q.

(** [x >= y] as JavaScript evaluates it: false as soon as one side is
    NaN. *)
Definition geb (x y : number) : bool :=
  match x, y with
  | NaN, _ | _, NaN => false
  | PosInf, _ => true
  | _, NegInf => true
  | Fin a, Fin b => Qle_bool b a
  | Fin _, PosInf => false
  | NegInf, _ => false
  end.

(** [x < y] as JavaScript evaluates it. *)
Definition ltb (x y : number) : bool :=
  match x, y with
  | NaN, _ | _, NaN => false
  | _, NegInf => false
  | PosInf, _ => false
  | Fin a, Fin b => negb (Qle_bool b a)
  | Fin _, PosInf => true
  | NegInf, _ => true
  end.

(** [x == y] on numbers: NaN equals nothing. *)
Definition eqb (x y : number) : bool :=
  match x, y with
  | Fin a, Fin b => Qeq_bool a b
  | PosInf, PosInf | NegInf, NegInf => true
  | _, _ => false
  end.

End Num.

(* ================================================================== *)
(** ** Arrays *)

Module Arr.

Section Slice.
Variable A : Type.

(** Clamp of a relative index, as [Array.prototype.slice] does it. *)
Definition clamp (len : nat) (i : Z) : nat :=
  Z.to_nat (if (i <? 0)%Z then Z.max (Z.of_nat len + i) 0
            else Z.min i (Z.of_nat len)).

(** [arr.slice(start)]. *)
Definition slice_from (arr : list A) (start : Z) : list A :=
  skipn (clamp (List.length arr) start) arr.

(** [arr.slice(0, e)]. *)
Definition slice_to (arr : list A) (e : Z) : list A :=
  firstn (clamp (List.length arr) e) arr.
End Slice.

Section Sort.
Variable A : Type.
Variable comparefn : A -> A -> Num.number.

(** SortCompare of ECMAScript for a user comparator. *)
Definition sort_compare (x y : A) : comparison :=
  Num.sign (comparefn x y).

(** [x] goes in front of the first element that must not precede it. *)
Fixpoint insert (x : A) (l : list A) : list A :=
  match l with
  | [] => [x]
  | y :: l' =>
      match sort_compare x y with
      | Gt => y :: insert x l'
      | _ => x :: l
      end
  end.

(** [arr.sort(comparefn)].  The language requires the sort to be
    stable; for a comparator that orders the elements consistently the
    result is then determined, and it is the one computed here.  For an
    inconsistent comparator the language leaves the order to the
    implementation; an array in which every adjacent comparison reads as
    "keep" is left as it is by this insertion, as it is by the run
    detection of V8. *)
Definition sort (arr : list A) : list A := fold_right insert [] arr.
End Sort.

End Arr.

(* ================================================================== *)
(** ** Data model ([types.ts]) *)

Record ProjectInfo := {
  name : string;
  type : string;
  description : string;
  createdAt : string;
  lastUpdated : string
}.

(** [status] is declared as the union of five literals; a value of type
    [any] is assigned to it unchecked, so it is a string here and
    [valid_status] tells the five apart. *)
Record ComponentStatus := {
  status : string;
  progress : Z;
  details : option string;
  cs_lastUpdated : string
}.

Definition status_values : list string :=
  ["not_started"; "in_progress"; "complete"; "blocked"; "deprecated"].

Definition valid_status (s : string) : bool :=
  existsb (String.eqb s) status_values.

Record ArchitectureDecision := {
  ad_id : string;
  decision : string;
  rationale : string;
  impact : option string;
  alternatives : option (list string);
  ad_date : string;
  ad_tags : option (list string)
}.

Record WorkingSolution := {
  ws_id : string;
  problem : string;
  solution : string;
  command : option string;
  ws_tags : option (list string);
  ws_date : string;
  successCount : Z
}.

Record ConversationContext := {
  cc_id : string;
  summary : string;
  decisions_made : option (list string);
  solutions_found : option (list string);
  cc_date : string
}.

(** [Record<string, T>]: the own properties of the object, keys with
    their values, in enumeration order, which is the order in which
    [searchMemory] scans the solutions.  The keys of the model are the
    names that an object enumerates in the order of their creation:
    neither an array index (a canonical numeric string, which enumerates
    before the others) nor [__proto__] (which an assignment takes for the
    prototype).  The names this program creates itself, generated ids and
    backup file names, are of that kind; a component name is the caller's. *)
Definition dict (T : Type) : Type := list (string * T).

Module Dict.
Section Ops.
Variable T : Type.

(** [Object.values(o)]. *)
Definition values (o : dict T) : list T := map snd o.

(** [Object.keys(o)]. *)
Definition keys (o : dict T) : list string := map fst o.

(** [o[k]], of the own properties. *)
Fixpoint get (o : dict T) (k : string) : option T :=
  match o with
  | [] => None
  | (k', v) :: o' => if String.eqb k k' then Some v else get o' k
  end.

(** [o[k] = v], for a key of the model: an existing key keeps its place,
    a new one goes last. *)
Fixpoint set (o : dict T) (k : string) (v : T) : dict T :=
  match o with
  | [] => [(k, v)]
  | (k', v') :: o' =>
      if String.eqb k k' then (k, v) :: o' else (k', v') :: set o' k v
  end.
End Ops.
End Dict.

Record ImplementationStatus := {
  overall_progress : string;
  components : dict ComponentStatus
}.

Record Architecture := {
  technologies : list string;
  decisions : list ArchitectureDecision
}.

Record Metadata := {
  version : string;
  created_at : string;
  last_updated : string
}.

Record ProjectMemory := {
  project_info : ProjectInfo;
  implementation_status : ImplementationStatus;
  architecture : Architecture;
  working_solutions : dict WorkingSolution;
  current_priorities : list string;
  conversations : list ConversationContext;
  metadata : Metadata
}.

Record ProjectContext := {
  project_name : string;
  project_type : string;
  project_description : string;
  project_root : string;
  ctx_overall_progress : string;
  ctx_components : dict ComponentStatus;
  priorities : list string;
  ctx_technologies : list string;
  recent_decisions : list ArchitectureDecision;
  solutions : dict WorkingSolution;
  recent_conversations : list ConversationContext;
  ctx_last_updated : string
}.

Record ServerConfig := {
  max_conversation_history : Z;
  backup_enabled : bool;
  backup_interval : Z;
  compression_enabled : bool;
  auto_detect_project_type : bool
}.

(** [defaultConfig] of [loadConfig]. *)
Definition defaultConfig : ServerConfig := {|
  max_conversation_history := 100;
  backup_enabled := true;
  backup_interval := 3600;
  compression_enabled := false;
  auto_detect_project_type := true
|}.

(* ================================================================== *)
(** ** Search ([MemoryManager.searchMemory], [calculateRelevance]) *)

Inductive SearchData :=
| DecisionData (d : ArchitectureDecision)
| SolutionData (s : WorkingSolution)
| ConversationData (c : ConversationContext).

Record SearchResult := {
  sr_type : string;
  relevance : Num.number;
  data : SearchData
}.

(** The inner loop of [calculateRelevance], for one [queryWord]. *)
Definition score_text_words (queryWord : string) (textWords : list string)
    (score : Num.number) : Num.number :=
  fold_left
    (fun score textWord =>
       if Str.includes textWord queryWord
       then Num.add score
              (Num.div_length (String.length queryWord) (String.length textWord))
       else score)
    textWords score.

Definition calculateRelevance (query text : string) : Num.number :=
  let textLower := Str.toLowerCase text in
  let score := Num.zero in
  let score := if Str.includes textLower query then Num.add score Num.ten else score in
  let queryWords := Str.split_space query in
  let textWords := Str.split_space textLower in
  fold_left (fun score queryWord => score_text_words queryWord textWords score)
            queryWords score.

(** The text a record is ranked on. *)
Definition record_text (x : SearchData) : string :=
  match x with
  | DecisionData d => decision d +++ " " +++ rationale d
  | SolutionData s => problem s +++ " " +++ solution s
  | ConversationData c => summary c
  end.

(** The conditions under which the three loops of [searchMemory] push. *)
Definition decision_matches (queryLower : string) (d : ArchitectureDecision) : bool :=
  Str.includes (Str.toLowerCase (decision d)) queryLower
  || Str.includes (Str.toLowerCase (rationale d)) queryLower.

Definition solution_matches (queryLower : string) (s : WorkingSolution) : bool :=
  Str.includes (Str.toLowerCase (problem s)) queryLower
  || Str.includes (Str.toLowerCase (solution s)) queryLower.

Definition conversation_matches (queryLower : string) (c : ConversationContext) : bool :=
  Str.includes (Str.toLowerCase (summary c)) queryLower.

(** The object that is pushed. *)
Definition hit (kind queryLower : string) (x : SearchData) : SearchResult :=
  {| sr_type := kind;
     relevance := calculateRelevance queryLower (record_text x);
     data := x |}.

(** The three scans of [searchMemory]; [results] is the array being
    pushed to. *)
Definition scan_decisions (queryLower : string)
    (ds : list ArchitectureDecision) (results : list SearchResult)
    : list SearchResult :=
  fold_left
    (fun results d =>
       if decision_matches queryLower d
       then results ++ [hit "decision" queryLower (DecisionData d)]
       else results)
    ds results.

Definition scan_solutions (queryLower : string)
    (ss : list WorkingSolution) (results : list SearchResult)
    : list SearchResult :=
  fold_left
    (fun results s =>
       if solution_matches queryLower s
       then results ++ [hit "solution" queryLower (SolutionData s)]
       else results)
    ss results.

Definition scan_conversations (queryLower : string)
    (cs : list ConversationContext) (results : list SearchResult)
    : list SearchResult :=
  fold_left
    (fun results c =>
       if conversation_matches queryLower c
       then results ++ [hit "conversation" queryLower (ConversationData c)]
       else results)
    cs results.

(** The [results] array of [searchMemory] before it is sorted.  The guards
    [Array.isArray(this.memory.architecture.decisions)] and the like hold
    of every memory of type [ProjectMemory]. *)
Definition candidates (memory : ProjectMemory) (query : string)
    : list SearchResult :=
  let queryLower := Str.toLowerCase query in
  let results := [] in
  let results := scan_decisions queryLower (decisions (architecture memory)) results in
  let results := scan_solutions queryLower (Dict.values (working_solutions memory)) results in
  scan_conversations queryLower (conversations memory) results.

(** [(a, b) => b.relevance - a.relevance]. *)
Definition by_relevance (a b : SearchResult) : Num.number :=
  Num.sub (relevance b) (relevance a).

Definition searchMemory (memory : ProjectMemory) (query : string) (limit : Z)
    : list SearchResult :=
  Arr.slice_to (Arr.sort by_relevance (candidates memory query)) limit.

(** [limit: number = 10]. *)
Definition default_limit : Z := 10.

(* ================================================================== *)
(** ** The store ([MemoryManager]) *)

(** Outcome of a call that may throw: the value, or the message of the
    [Error]. *)
Inductive result (A : Type) : Type :=
| Ok (a : A)
| Throw (message : string).
Arguments Ok {A} a.
Arguments Throw {A} message.

(** The files under the memory directory: [project_memory.json],
    [current_context.json] and the [backups/] directory. *)
Record Disk := {
  memory_file : option ProjectMemory;
  context_file : option ProjectContext;
  backup_dir : dict ProjectMemory
}.

(** What one run of [createBackup] meets: the clock, and whether one of
    its file operations rejects.  When one does, [backup_written] tells
    how far the run got: [None] when [ensureDir] or [writeJson] rejects,
    and nothing is written; [Some k] when the backup file has been
    written and [readdir] rejects ([k] is 0) or the removal of an old
    backup rejects after [k] of them have been removed.  A [writeJson]
    that leaves part of a file behind is not modelled.  Without a
    rejection [backup_written] is not consulted. *)
Record BackupEnv := {
  backup_now : string;
  backup_fails : bool;
  backup_written : option nat
}.

(** What one run of [saveMemory] meets. *)
Record SaveEnv := {
  save_now : string;
  memory_write_error : option string;
  context_write_error : option string;
  save_backup : BackupEnv
}.

(** What one call of a store method meets. *)
Record Env := {
  now : string;
  generated_id : string;
  detected_type : string;
  pre_backup : BackupEnv;
  save : SaveEnv
}.

(** The [MemoryManager] object with the files it owns. *)
Record Store := {
  projectRoot : string;
  config : ServerConfig;
  memory : ProjectMemory;
  disk : Disk
}.

Definition with_memory (st : Store) (m : ProjectMemory) : Store :=
  {| projectRoot := projectRoot st; config := config st;
     memory := m; disk := disk st |}.

Definition with_disk (st : Store) (d : Disk) : Store :=
  {| projectRoot := projectRoot st; config := config st;
     memory := memory st; disk := d |}.

(** [path.basename] of a resolved path: what follows the last slash. *)
Fixpoint basename_from (acc s : string) : string :=
  match s with
  | EmptyString => acc
  | String c r =>
      if Ascii.eqb c "/"%char then basename_from EmptyString r
      else basename_from (acc +++ String c EmptyString) r
  end.

Definition basename (p : string) : string := basename_from EmptyString p.

(** [arr.sort()] on file names: ascending by character code. *)
Fixpoint insert_name (x : string) (l : list string) : list string :=
  match l with
  | [] => [x]
  | y :: l' => if String.leb x y then x :: l else y :: insert_name x l'
  end.

Definition sort_names (l : list string) : list string :=
  fold_right insert_name [] l.

Definition is_backup_name (f : string) : bool :=
  Str.startsWith f "memory_backup_" && Str.endsWith f ".json".

(** [fs.remove] of each listed file. *)
Definition remove_files (T : Type) (dir : dict T) (names : list string) : dict T :=
  filter (fun entry => negb (existsb (String.eqb (fst entry)) names)) dir.

(** The [catch] of [createBackup] swallows every rejection: what has been
    written and removed until then stays so. *)
Definition createBackup (st : Store) (e : BackupEnv) : Store :=
  if backup_fails e then
    match backup_written e with
    | None => st
    | Some k =>
        let timestamp := Str.replace_colon_dot (backup_now e) in
        let backupFile := "memory_backup_" +++ timestamp +++ ".json" in
        let dir := Dict.set (backup_dir (disk st)) backupFile (memory st) in
        let backups := Dict.keys dir in
        let backupFiles := rev (sort_names (filter is_backup_name backups)) in
        let dir :=
          if (10 <? List.length backupFiles)%nat
          then remove_files dir (firstn k (Arr.slice_from backupFiles 10))
          else dir in
        with_disk st {| memory_file := memory_file (disk st);
                        context_file := context_file (disk st);
                        backup_dir := dir |}
    end
  else
    let timestamp := Str.replace_colon_dot (backup_now e) in
    let backupFile := "memory_backup_" +++ timestamp +++ ".json" in
    let dir := Dict.set (backup_dir (disk st)) backupFile (memory st) in
    let backups := Dict.keys dir in
    let backupFiles := rev (sort_names (filter is_backup_name backups)) in
    let dir :=
      if (10 <? List.length backupFiles)%nat
      then remove_files dir (Arr.slice_from backupFiles 10)
      else dir in
    with_disk st {| memory_file := memory_file (disk st);
                    context_file := context_file (disk st);
                    backup_dir := dir |}.

Definition getCurrentContext (st : Store) : ProjectContext :=
  let m := memory st in
  {| project_name := name (project_info m);
     project_type := type (project_info m);
     project_description := description (project_info m);
     project_root := projectRoot st;
     ctx_overall_progress := overall_progress (implementation_status m);
     ctx_components := components (implementation_status m);
     priorities := current_priorities m;
     ctx_technologies := technologies (architecture m);
     recent_decisions := Arr.slice_from (decisions (architecture m)) (-5);
     solutions := working_solutions m;
     recent_conversations := Arr.slice_from (conversations m) (-5);
     ctx_last_updated := last_updated (metadata m) |}.

Definition set_last_updated (m : ProjectMemory) (t : string) : ProjectMemory :=
  {| project_info := project_info m;
     implementation_status := implementation_status m;
     architecture := architecture m;
     working_solutions := working_solutions m;
     current_priorities := current_priorities m;
     conversations := conversations m;
     metadata := {| version := version (metadata m);
                    created_at := created_at (metadata m);
                    last_updated := t |} |}.

(** [saveMemory]: the time stamp is set first; a write that rejects is
    rethrown, with the memory object already changed. *)
Definition saveMemory (st : Store) (e : SaveEnv) : Store * result unit :=
  let st := with_memory st (set_last_updated (memory st) (save_now e)) in
  match memory_write_error e with
  | Some err => (st, Throw err)
  | None =>
      let st := with_disk st {| memory_file := Some (memory st);
                                context_file := context_file (disk st);
                                backup_dir := backup_dir (disk st) |} in
      let context := getCurrentContext st in
      match context_write_error e with
      | Some err => (st, Throw err)
      | None =>
          let st := with_disk st {| memory_file := memory_file (disk st);
                                    context_file := Some context;
                                    backup_dir := backup_dir (disk st) |} in
          let st := if backup_enabled (config st)
                    then createBackup st (save_backup e) else st in
          (st, Ok tt)
      end
  end.

Definition set_components (m : ProjectMemory) (c : dict ComponentStatus)
    (overall : string) : ProjectMemory :=
  {| project_info := project_info m;
     implementation_status := {| overall_progress := overall; components := c |};
     architecture := architecture m;
     working_solutions := working_solutions m;
     current_priorities := current_priorities m;
     conversations := conversations m;
     metadata := metadata m |}.

Definition set_decisions (m : ProjectMemory) (ds : list ArchitectureDecision)
    : ProjectMemory :=
  {| project_info := project_info m;
     implementation_status := implementation_status m;
     architecture := {| technologies := technologies (architecture m);
                        decisions := ds |};
     working_solutions := working_solutions m;
     current_priorities := current_priorities m;
     conversations := conversations m;
     metadata := metadata m |}.

Definition set_working_solutions (m : ProjectMemory) (ws : dict WorkingSolution)
    : ProjectMemory :=
  {| project_info := project_info m;
     implementation_status := implementation_status m;
     architecture := architecture m;
     working_solutions := ws;
     current_priorities := current_priorities m;
     conversations := conversations m;
     metadata := metadata m |}.

Definition set_current_priorities (m : ProjectMemory) (ps : list string)
    : ProjectMemory :=
  {| project_info := project_info m;
     implementation_status := implementation_status m;
     architecture := architecture m;
     working_solutions := working_solutions m;
     current_priorities := ps;
     conversations := conversations m;
     metadata := metadata m |}.

Definition set_conversations (m : ProjectMemory) (cs : list ConversationContext)
    : ProjectMemory :=
  {| project_info := project_info m;
     implementation_status := implementation_status m;
     architecture := architecture m;
     working_solutions := working_solutions m;
     current_priorities := current_priorities m;
     conversations := cs;
     metadata := metadata m |}.

Definition updateImplementationStatus (st : Store) (e : Env)
    (component status : string) (details : option string) (progress : option Z)
    : Store * result unit :=
  let entry := {| status := status;
                  progress := match progress with Some p => p | None => 0%Z end;
                  details := details;
                  cs_lastUpdated := now e |} in
  let m := memory st in
  let st := with_memory st
              (set_components m
                 (Dict.set (components (implementation_status m)) component entry)
                 (overall_progress (implementation_status m))) in
  saveMemory st (save e).

Definition addArchitectureDecision (st : Store) (e : Env)
    (decision rationale : string) (impact : option string)
    (alternatives : option (list string)) : Store * result unit :=
  let newDecision := {| ad_id := generated_id e;
                        decision := decision;
                        rationale := rationale;
                        impact := impact;
                        alternatives := alternatives;
                        ad_date := now e;
                        ad_tags := Some [] |} in
  let m := memory st in
  let st := with_memory st
              (set_decisions m (decisions (architecture m) ++ [newDecision])) in
  saveMemory st (save e).

Definition addWorkingSolution (st : Store) (e : Env)
    (problem solution : string) (command : option string)
    (tags : option (list string)) : Store * result unit :=
  let id := generated_id e in
  let newSolution := {| ws_id := id;
                        problem := problem;
                        solution := solution;
                        command := command;
                        ws_tags := Some (match tags with Some t => t | None => [] end);
                        ws_date := now e;
                        successCount := 1 |} in
  let m := memory st in
  let st := with_memory st
              (set_working_solutions m (Dict.set (working_solutions m) id newSolution)) in
  saveMemory st (save e).

Definition updatePriorities (st : Store) (e : Env) (priorities : list string)
    : Store * result unit :=
  let st := with_memory st (set_current_priorities (memory st) priorities) in
  saveMemory st (save e).

(** The [context] object that [logConversationContext] builds. *)
Definition new_conversation (e : Env) (summary : string)
    (decisions_made solutions_found : option (list string)) : ConversationContext :=
  {| cc_id := generated_id e;
     summary := summary;
     decisions_made := decisions_made;
     solutions_found := solutions_found;
     cc_date := now e |}.

Definition logConversationContext (st : Store) (e : Env)
    (summary : string) (decisions_made solutions_found : option (list string))
    : Store * result unit :=
  let context := new_conversation e summary decisions_made solutions_found in
  let pushed := conversations (memory st) ++ [context] in
  let kept :=
    if (max_conversation_history (config st) <? Z.of_nat (List.length pushed))%Z
    then Arr.slice_from pushed (- max_conversation_history (config st))
    else pushed in
  let st := with_memory st (set_conversations (memory st) kept) in
  saveMemory st (save e).

(** [x || now] on a string: the empty string is falsy. *)
Definition or_else (x fallback : string) : string :=
  if String.eqb x "" then fallback else x.

Definition scopes : list string :=
  ["all"; "decisions"; "solutions"; "conversations"; "components"].

Definition unknown_scope_message (scope : string) : string :=
  "Unknown scope: " +++ scope +++
  ". Use: all, decisions, solutions, conversations, or components".

Definition cleared_all (st : Store) (e : Env) : ProjectMemory :=
  let m := memory st in
  {| project_info :=
       {| name := basename (projectRoot st);
          type := if auto_detect_project_type (config st)
                  then detected_type e else "unknown";
          description := "";
          createdAt := or_else (createdAt (project_info m)) (now e);
          lastUpdated := now e |};
     implementation_status := {| overall_progress := "unknown"; components := [] |};
     architecture := {| technologies := []; decisions := [] |};
     working_solutions := [];
     current_priorities := [];
     conversations := [];
     metadata := {| version := "1.0.0";
                    created_at := or_else (created_at (metadata m)) (now e);
                    last_updated := now e |} |}.

Definition clearMemory (st : Store) (e : Env) (scope : string)
    (createBackup_flag : bool) : Store * result string :=
  let st := if createBackup_flag then createBackup st (pre_backup e) else st in
  let m := memory st in
  let switched : result ProjectMemory :=
    if String.eqb scope "all" then Ok (cleared_all st e)
    else if String.eqb scope "decisions" then Ok (set_decisions m [])
    else if String.eqb scope "solutions" then Ok (set_working_solutions m [])
    else if String.eqb scope "conversations" then Ok (set_conversations m [])
    else if String.eqb scope "components" then Ok (set_components m [] "unknown")
    else Throw (unknown_scope_message scope) in
  match switched with
  | Throw msg => (st, Throw msg)
  | Ok m' =>
      let '(st, saved) := saveMemory (with_memory st m') (save e) in
      match saved with
      | Throw msg => (st, Throw msg)
      | Ok _ =>
          let backupMsg := if createBackup_flag then " (backup created)" else "" in
          (st, Ok ("✅ Successfully cleared " +++ scope +++ " memory" +++ backupMsg))
      end
  end.

(* ================================================================== *)
(** ** Untyped values ([any]) *)

(** A value as [JSON.parse] or a tool call delivers it, plus [undefined].
    Numbers are the integers. *)
Inductive JSValue : Type :=
| JSUndefined
| JSNull
| JSBool (b : bool)
| JSNumber (n : Z)
| JSString (s : string)
| JSArray (items : list JSValue)
| JSObject (fields : list (string * JSValue)).

Module JS.

(** ToBoolean. *)
Definition truthy (v : JSValue) : bool :=
  match v with
  | JSUndefined | JSNull => false
  | JSBool b => b
  | JSNumber n => negb (n =? 0)%Z
  | JSString s => negb (String.eqb s "")
  | JSArray _ | JSObject _ => true
  end.

(** [Array.isArray(v)]. *)
Definition isArray (v : JSValue) : bool :=
  match v with JSArray _ => true | _ => false end.

(** [typeof v === 'object']: true of [null], of arrays and of plain
    objects. *)
Definition typeof_object (v : JSValue) : bool :=
  match v with
  | JSNull | JSArray _ | JSObject _ => true
  | _ => false
  end.

(** A mapping: an object that is no array. *)
Definition isMapping (v : JSValue) : bool :=
  match v with JSObject _ => true | _ => false end.

Definition nullish (v : JSValue) : bool :=
  match v with JSUndefined | JSNull => true | _ => false end.

Fixpoint lookup (fields : list (string * JSValue)) (k : string) : JSValue :=
  match fields with
  | [] => JSUndefined
  | (k', v) :: rest => if String.eqb k k' then v else lookup rest k
  end.

(** [v.k] for [v] neither [undefined] nor [null] and [k] one of the
    property names this program reads: only a plain object can have it. *)
Definition get (v : JSValue) (k : string) : JSValue :=
  match v with
  | JSObject fields => lookup fields k
  | _ => JSUndefined
  end.

(** [v?.k]. *)
Definition opt_get (v : JSValue) (k : string) : JSValue :=
  if nullish v then JSUndefined else get v k.

(** [a || b]. *)
Definition or (a b : JSValue) : JSValue := if truthy a then a else b.

(** A destructuring default, [{ k = d } = ...]: used when the property
    is [undefined]. *)
Definition default (v d : JSValue) : JSValue :=
  match v with JSUndefined => d | _ => v end.

Definition join_with (sep : string) (parts : list string) : string :=
  String.concat sep parts.

(** ToString, as a template literal applies it, on the values for which
    [converts] below holds.  It is not the conversion of the source on a
    number of magnitude 2^53 or more (which has no digits of its own from
    the seventeenth on, and an exponent from 10^21) nor on an object with
    an own [toString] property (where the source throws, [to_string_throws]
    below): the handlers apply it to no such value. *)
Fixpoint to_string (v : JSValue) : string :=
  match v with
  | JSUndefined => "undefined"
  | JSNull => "null"
  | JSBool true => "true"
  | JSBool false => "false"
  | JSNumber n => Str.of_Z n
  | JSString s => s
  | JSArray items =>
      join_with ","
        (map (fun x => if nullish x then "" else to_string x) items)
  | JSObject _ => "[object Object]"
  end.

(** An integer that every binary64 computation of the source keeps
    exactly, and that converts to a string as its decimal digits. *)
Definition safe_integer (n : Z) : bool := (Z.abs n <? 2 ^ 53)%Z.

(** Is [toString] an own property?  A value that [JSON.parse] delivers
    holds no function, so an own [toString] is never callable. *)
Definition own_toString (fields : list (string * JSValue)) : bool :=
  existsb (fun kv => String.eqb (fst kv) "toString") fields.

(** ToString throws a TypeError: on an object whose own [toString] is not
    callable (the inherited [valueOf] then returns the object itself, no
    primitive), and on an array that holds such an object, whose [join]
    converts every element that is neither [undefined] nor [null]. *)
Fixpoint to_string_throws (v : JSValue) : bool :=
  match v with
  | JSObject fields => own_toString fields
  | JSArray items => existsb (fun x => to_string_throws x) items
  | _ => false
  end.

(** ToString returns, and returns [to_string v]. *)
Fixpoint converts (v : JSValue) : bool :=
  match v with
  | JSNumber n => safe_integer n
  | JSObject fields => negb (own_toString fields)
  | JSArray items => forallb (fun x => converts x) items
  | _ => true
  end.

(** The casts at a call into the store, from [any] to the declared
    parameter type; [None] when the value does not inhabit it. *)
Definition as_string (v : JSValue) : option string :=
  match v with JSString s => Some s | _ => None end.

Definition as_bool (v : JSValue) : option bool :=
  match v with JSBool b => Some b | _ => None end.

Definition as_number (v : JSValue) : option Z :=
  match v with JSNumber n => Some n | _ => None end.

(** A number that is stored and converted to a string: within the safe
    integers. *)
Definition as_safe_number (v : JSValue) : option Z :=
  match v with
  | JSNumber n => if safe_integer n then Some n else None
  | _ => None
  end.

Fixpoint all_strings (items : list JSValue) : option (list string) :=
  match items with
  | [] => Some []
  | JSString s :: rest =>
      match all_strings rest with
      | Some l => Some (s :: l)
      | None => None
      end
  | _ :: _ => None
  end.

Definition as_string_array (v : JSValue) : option (list string) :=
  match v with JSArray items => all_strings items | _ => None end.

(** An optional parameter: [undefined] is the absent value. *)
Definition optional (A : Type) (cast : JSValue -> option A) (v : JSValue)
    : option (option A) :=
  match v with
  | JSUndefined => Some None
  | _ => match cast v with Some a => Some (Some a) | None => None end
  end.

End JS.

(* ================================================================== *)
(** ** Validation on load ([MemoryManager.validateAndMigrateMemory]) *)

(** The object literal that [validateAndMigrateMemory] returns.  It is
    declared a [ProjectMemory]; what it holds at run time is whatever the
    expressions below evaluate to. *)
Record LoadedProjectInfo := {
  l_name : JSValue;
  l_type : JSValue;
  l_description : JSValue;
  l_createdAt : JSValue;
  l_lastUpdated : JSValue
}.

Record LoadedImplementationStatus := {
  l_overall_progress : JSValue;
  l_components : JSValue
}.

Record LoadedArchitecture := {
  l_technologies : JSValue;
  l_decisions : JSValue
}.

Record LoadedMetadata := {
  l_version : JSValue;
  l_created_at : JSValue;
  l_last_updated : JSValue
}.

Record LoadedMemory := {
  l_project_info : LoadedProjectInfo;
  l_implementation_status : LoadedImplementationStatus;
  l_architecture : LoadedArchitecture;
  l_working_solutions : JSValue;
  l_current_priorities : JSValue;
  l_conversations : JSValue;
  l_metadata : LoadedMetadata
}.

Definition validateAndMigrateMemory (st : Store) (e : Env) (memory : JSValue)
    : LoadedMemory :=
  let now := JSString (now e) in
  let projectName := JSString (basename (projectRoot st)) in
  let project_info := JS.opt_get memory "project_info" in
  let implementation_status := JS.opt_get memory "implementation_status" in
  let architecture := JS.opt_get memory "architecture" in
  let metadata := JS.opt_get memory "metadata" in
  {| l_project_info :=
       {| l_name := JS.or (JS.opt_get project_info "name") projectName;
          l_type := JS.or (JS.opt_get project_info "type")
                      (if auto_detect_project_type (config st)
                       then JSString (detected_type e) else JSString "unknown");
          l_description := JS.or (JS.opt_get project_info "description") (JSString "");
          l_createdAt := JS.or (JS.opt_get project_info "createdAt") now;
          l_lastUpdated := JS.or (JS.opt_get project_info "lastUpdated") now |};
     l_implementation_status :=
       {| l_overall_progress :=
            JS.or (JS.opt_get implementation_status "overall_progress")
                  (JSString "unknown");
          l_components :=
            JS.or (JS.opt_get implementation_status "components") (JSObject []) |};
     l_architecture :=
       {| l_technologies :=
            if JS.isArray (JS.opt_get architecture "technologies")
            then JS.get (JS.get memory "architecture") "technologies"
            else JSArray [];
          l_decisions :=
            if JS.isArray (JS.opt_get architecture "decisions")
            then JS.get (JS.get memory "architecture") "decisions"
            else JSArray [] |};
     l_working_solutions :=
       if JS.truthy (JS.opt_get memory "working_solutions")
          && JS.typeof_object (JS.get memory "working_solutions")
       then JS.get memory "working_solutions"
       else JSObject [];
     l_current_priorities :=
       if JS.isArray (JS.opt_get memory "current_priorities")
       then JS.get memory "current_priorities"
       else JSArray [];
     l_conversations :=
       if JS.isArray (JS.opt_get memory "conversations")
       then JS.get memory "conversations"
       else JSArray [];
     l_metadata :=
       {| l_version := JS.or (JS.opt_get metadata "version") (JSString "1.0.0");
          l_created_at := JS.or (JS.opt_get metadata "created_at") now;
          l_last_updated := now |} |}.

(* ================================================================== *)
(** ** The tool gateway ([ProjectMemoryServer]) *)

(** The [text] of a tool result.  Where the source renders a value with
    [JSON.stringify], the value is kept.  [Untold] is a text, or the text
    of an error, that this model does not determine: the call has
    returned, and the store is the one given with it. *)
Inductive ToolText : Type :=
| Plain (text : string)
| FormattedContext (context : ProjectContext)
| SearchReport (query : string) (results_count : nat)
    (results : list SearchResult)
| Untold.

(** The line feed of a template literal. *)
Definition nl : string := String (ascii_of_nat 10) EmptyString.

(** Destructuring [args] (declared [any]) throws a TypeError on
    [undefined] and [null]; the message is the one of V8 for a pattern
    whose first property has no default. *)
Definition destructure_error (first_property : string) (args : JSValue) : string :=
  "Cannot destructure property '" +++ first_property +++ "' of 'args' as it is "
  +++ JS.to_string args +++ ".".

(** The message of V8 for a pattern whose first property has a default
    ([{ scope = 'all', ... } = args]): that of a property read. *)
Definition read_property_error (first_property : string) (args : JSValue) : string :=
  "Cannot read properties of " +++ JS.to_string args
  +++ " (reading '" +++ first_property +++ "')".

(** The message of V8 when ToString finds no primitive. *)
Definition to_primitive_error : string := "Cannot convert object to primitive value".

(** A handler of the gateway: [None] when an argument handed to a store
    method does not inhabit the declared parameter type, which the typed
    model of the store does not cover. *)
Definition handler : Type := Store -> Env -> JSValue -> option (Store * result ToolText).

Definition handleGetProjectContext (st : Store) : Store * result ToolText :=
  let context := getCurrentContext st in
  (st, Ok (FormattedContext context)).

Definition handleUpdateImplementationStatus : handler := fun st e args =>
  if JS.nullish args then Some (st, Throw (destructure_error "component" args))
  else
    let component := JS.get args "component" in
    let status := JS.get args "status" in
    let details := JS.get args "details" in
    let progress := JS.get args "progress" in
    match JS.as_string component, JS.as_string status,
          JS.optional JS.as_string details, JS.optional JS.as_safe_number progress with
    | Some component', Some status', Some details', Some progress' =>
        let '(st, r) := updateImplementationStatus st e component' status' details' progress' in
        match r with
        | Throw msg => Some (st, Throw msg)
        | Ok _ =>
            Some (st, Ok (Plain
              ("Successfully updated " +++ JS.to_string component +++ " status to "
               +++ JS.to_string status +++
               match progress with
               | JSUndefined => ""
               | _ => " (" +++ JS.to_string progress +++ "%)"
               end)))
        end
    | _, _, _, _ => None
    end.

Definition handleAddArchitectureDecision : handler := fun st e args =>
  if JS.nullish args then Some (st, Throw (destructure_error "decision" args))
  else
    let decision := JS.get args "decision" in
    let rationale := JS.get args "rationale" in
    let impact := JS.get args "impact" in
    let alternatives := JS.get args "alternatives" in
    match JS.as_string decision, JS.as_string rationale,
          JS.optional JS.as_string impact,
          JS.optional JS.as_string_array alternatives with
    | Some decision', Some rationale', Some impact', Some alternatives' =>
        let '(st, r) := addArchitectureDecision st e decision' rationale' impact' alternatives' in
        match r with
        | Throw msg => Some (st, Throw msg)
        | Ok _ =>
            Some (st, Ok (Plain
              ("Successfully recorded architecture decision: " +++ JS.to_string decision)))
        end
    | _, _, _, _ => None
    end.

Definition handleAddWorkingSolution : handler := fun st e args =>
  if JS.nullish args then Some (st, Throw (destructure_error "problem" args))
  else
    let problem := JS.get args "problem" in
    let solution := JS.get args "solution" in
    let command := JS.get args "command" in
    let tags := JS.get args "tags" in
    match JS.as_string problem, JS.as_string solution,
          JS.optional JS.as_string command,
          JS.optional JS.as_string_array tags with
    | Some problem', Some solution', Some command', Some tags' =>
        let '(st, r) := addWorkingSolution st e problem' solution' command' tags' in
        match r with
        | Throw msg => Some (st, Throw msg)
        | Ok _ =>
            Some (st, Ok (Plain
              ("Successfully recorded working solution for: " +++ JS.to_string problem)))
        end
    | _, _, _, _ => None
    end.

Definition handleUpdatePriorities : handler := fun st e args =>
  if JS.nullish args then Some (st, Throw (destructure_error "priorities" args))
  else
    let priorities := JS.get args "priorities" in
    match JS.as_string_array priorities with
    | Some priorities' =>
        let '(st, r) := updatePriorities st e priorities' in
        match r with
        | Throw msg => Some (st, Throw msg)
        | Ok _ =>
            Some (st, Ok (Plain
              ("Successfully updated priorities ("
               +++ Str.of_Z (Z.of_nat (List.length priorities')) +++ " items)")))
        end
    | None => None
    end.

(** [query.toLowerCase()] on a value that is no string: a TypeError, with
    the message of V8. *)
Definition toLowerCase_error (query : JSValue) : string :=
  if JS.nullish query
  then "Cannot read properties of " +++ JS.to_string query
       +++ " (reading 'toLowerCase')"
  else "query.toLowerCase is not a function".

(** ToIntegerOrInfinity of a [limit] that is no number, as [slice]
    applies it: [null] is 0, a boolean 0 or 1.  The number that a string,
    an array or an object converts to is not modelled. *)
Definition limit_of (limit : JSValue) : option Z :=
  match limit with
  | JSNumber n => Some n
  | JSNull => Some 0%Z
  | JSBool b => Some (if b then 1 else 0)%Z
  | _ => None
  end.

(** [searchMemory] reads the store and writes nothing: where the number
    of [limit] is not modelled the text is [Untold], the store as it was. *)
Definition handleSearchMemory : handler := fun st e args =>
  if JS.nullish args then Some (st, Throw (destructure_error "query" args))
  else
    let query := JS.get args "query" in
    let limit := JS.default (JS.get args "limit") (JSNumber 10) in
    match query with
    | JSString query' =>
        match limit_of limit with
        | Some limit' =>
            let results := searchMemory (memory st) query' limit' in
            Some (st, Ok (SearchReport query' (List.length results) results))
        | None => Some (st, Ok Untold)
        end
    | _ => Some (st, Throw (toLowerCase_error query))
    end.

Definition handleLogConversationContext : handler := fun st e args =>
  if JS.nullish args then Some (st, Throw (destructure_error "summary" args))
  else
    let summary := JS.get args "summary" in
    let decisions_made := JS.get args "decisions_made" in
    let solutions_found := JS.get args "solutions_found" in
    match JS.as_string summary,
          JS.optional JS.as_string_array decisions_made,
          JS.optional JS.as_string_array solutions_found with
    | Some summary', Some decisions_made', Some solutions_found' =>
        let '(st, r) := logConversationContext st e summary' decisions_made' solutions_found' in
        match r with
        | Throw msg => Some (st, Throw msg)
        | Ok _ =>
            Some (st, Ok (Plain
              ("Successfully logged conversation context: " +++ JS.to_string summary)))
        end
    | _, _, _ => None
    end.

(** The text returned when [confirm] is falsy, for a [scope] and a
    [create_backup] that convert to strings as [JS.to_string] has it. *)
Definition confirmation_required (scope create_backup : JSValue) : string :=
  "‚ö†Ô∏è Memory clear operation requires confirmation. Call again with confirm: true to proceed."
  +++ nl +++ nl +++ "This will clear: " +++ JS.to_string scope
  +++ nl +++ "Backup will be created: " +++ JS.to_string create_backup.

(** The test of the source is [!confirm]: every truthy [confirm] goes on
    to [clearMemory].  On the early return the template literal converts
    [scope] and [create_backup]: a conversion that throws ends the call
    with a TypeError, and a number whose digits are not modelled leaves
    the text [Untold]. *)
Definition handleClearMemory : handler := fun st e args =>
  if JS.nullish args then Some (st, Throw (read_property_error "scope" args))
  else
    let scope := JS.default (JS.get args "scope") (JSString "all") in
    let create_backup := JS.default (JS.get args "create_backup") (JSBool true) in
    let confirm := JS.default (JS.get args "confirm") (JSBool false) in
    if negb (JS.truthy confirm)
    then
      if JS.to_string_throws scope || JS.to_string_throws create_backup
      then Some (st, Throw to_primitive_error)
      else if JS.converts scope && JS.converts create_backup
      then Some (st, Ok (Plain (confirmation_required scope create_backup)))
      else Some (st, Ok Untold)
    else
      match JS.as_string scope, JS.as_bool create_backup with
      | Some scope', Some create_backup' =>
          let '(st, r) := clearMemory st e scope' create_backup' in
          match r with
          | Throw msg => Some (st, Throw msg)
          | Ok text => Some (st, Ok (Plain text))
          end
      | _, _ => None
      end.

Definition tool_names : list string :=
  ["get_project_context"; "update_implementation_status";
   "add_architecture_decision"; "add_working_solution"; "update_priorities";
   "search_memory"; "log_conversation_context"; "clear_memory"].

(** The [switch] of [handleToolCall]. *)
Definition dispatch (name : string) : handler := fun st e args =>
  if String.eqb name "get_project_context" then Some (handleGetProjectContext st)
  else if String.eqb name "update_implementation_status"
       then handleUpdateImplementationStatus st e args
  else if String.eqb name "add_architecture_decision"
       then handleAddArchitectureDecision st e args
  else if String.eqb name "add_working_solution"
       then handleAddWorkingSolution st e args
  else if String.eqb name "update_priorities"
       then handleUpdatePriorities st e args
  else if String.eqb name "search_memory"
       then handleSearchMemory st e args
  else if String.eqb name "log_conversation_context"
       then handleLogConversationContext st e args
  else if String.eqb name "clear_memory"
       then handleClearMemory st e args
  else Some (st, Throw ("Unknown tool: " +++ name)).

(** [handleToolCall]: whatever a handler throws becomes a text result. *)
Definition handleToolCall (st : Store) (e : Env) (name : string) (args : JSValue)
    : option (Store * ToolText) :=
  match dispatch name st e args with
  | None => None
  | Some (st, Ok text) => Some (st, text)
  | Some (st, Throw errorMessage) =>
      Some (st, Plain ("Error executing " +++ name +++ ": " +++ errorMessage))
  end.

(* ================================================================== *)
(** ** The specification's wording, for comparison *)

(** The admission test of section 4.1 as the specification words it: the
    lowercased text contains the lowercased query, or some token of the
    query occurs in some token of the text. *)
Definition spec_admits (query text : string) : bool :=
  let q := Str.toLowerCase query in
  let t := Str.toLowerCase text in
  Str.includes t q
  || existsb (fun qt => existsb (fun tt => Str.includes tt qt) (Str.split_space t))
             (Str.split_space q).

(** The ratios of section 4.1: one for every pair of a query token and a
    text token that contains it, in the order query tokens, then text
    tokens. *)
Definition spec_ratios (queryWords textWords : list string) : list Num.number :=
  flat_map
    (fun q =>
       map (fun t => Num.div_length (String.length q) (String.length t))
           (filter (fun t => Str.includes t q) textWords))
    queryWords.

(** The score of section 4.1: the flat bonus plus the ratios. *)
Definition spec_score (query text : string) : Num.number :=
  let t := Str.toLowerCase text in
  fold_left Num.add
    (spec_ratios (Str.split_space query) (Str.split_space t))
    (if Str.includes t query then Num.ten else Num.zero).

(** A sequence of results in descending order of score, each comparison
    being the [>=] of the language. *)
Fixpoint descending (l : list SearchResult) : bool :=
  match l with
  | [] => true
  | a :: rest =>
      match rest with
      | [] => true
      | b :: _ => Num.geb (relevance a) (relevance b) && descending rest
      end
  end.

(** A score that is NaN or at least 10. *)
Definition ten_or_NaN (x : Num.number) : Prop :=
  x = Num.NaN \/ exists q, x = Num.Fin q /\ (10 <= q)%Q.

(** A finite score of at least 10. *)
Definition at_least_ten (x : Num.number) : Prop :=
  exists q, x = Num.Fin q /\ (10 <= q)%Q.

(** Every score in the list is finite. *)
Definition all_finite (l : list SearchResult) : Prop :=
  Forall (fun r => Num.isFinite (relevance r) = true) l.

(** [a] may stand before [b] in a descending sequence. *)
Definition not_below (a b : SearchResult) : Prop :=
  Num.geb (relevance a) (relevance b) = true.

(** The results whose score equals [s]. *)
Definition with_score (s : Num.number) (l : list SearchResult) : list SearchResult :=
  filter (fun r => Num.eqb (relevance r) s) l.

(** The last [n] entries of a sequence. *)
Definition lastn (A : Type) (n : nat) (l : list A) : list A :=
  skipn (List.length l - n) l.

(** A run of calls of [logConversationContext], one per pair of what the
    call meets and the summary logged; a failed save does not stop the
    caller from logging again. *)
Definition log_all (st : Store) (calls : list (Env * string)) : Store :=
  fold_left (fun st call => fst (logConversationContext st (fst call) (snd call) None None))
            calls st.

(** The required arguments of each operation, section 6. *)
Definition required_arguments (name : string) : list string :=
  if String.eqb name "update_implementation_status" then ["component"; "status"]
  else if String.eqb name "add_architecture_decision" then ["decision"; "rationale"]
  else if String.eqb name "add_working_solution" then ["problem"; "solution"]
  else if String.eqb name "update_priorities" then ["priorities"]
  else if String.eqb name "search_memory" then ["query"]
  else if String.eqb name "log_conversation_context" then ["summary"]
  else if String.eqb name "clear_memory" then ["confirm"]
  else [].

Definition out_of_range (v : JSValue) (lo hi : Z) : bool :=
  match v with
  | JSNumber n => (n <? lo)%Z || (hi <? n)%Z
  | _ => false
  end.

(** The argument validation of section 4.2: the text to signal for a call,
    or [None] when the arguments pass. *)
Definition spec_validation (name : string) (args : JSValue) : option string :=
  match find (fun k => match JS.get args k with JSUndefined => true | _ => false end)
             (required_arguments name) with
  | Some k => Some ("Missing required argument: " +++ k)
  | None =>
      if String.eqb name "update_implementation_status"
      then
        if negb (existsb (fun s => match JS.get args "status" with
                                   | JSString s' => String.eqb s s'
                                   | _ => false
                                   end) status_values)
        then Some ("Invalid status: " +++ JS.to_string (JS.get args "status"))
        else if out_of_range (JS.get args "progress") 0 100
        then Some "Progress must be between 0 and 100"
        else None
      else if String.eqb name "search_memory"
      then
        if out_of_range (JS.get args "limit") 1 50
        then Some "Limit must be between 1 and 50"
        else None
      else None
  end.

(* ================================================================== *)
(** ** Sample data *)

Module Sample.

Definition decision_of (id decision rationale : string) : ArchitectureDecision :=
  {| ad_id := id; decision := decision; rationale := rationale;
     impact := None; alternatives := None;
     ad_date := "2024-01-01T00:00:00.000Z"; ad_tags := Some [] |}.


(** The default structure of [loadMemory], for a project named [proj]. *)
Definition fresh_memory : ProjectMemory :=
  {| project_info := {| name := "proj"; type := "unknown"; description := "";
                        createdAt := "2024-01-01T00:00:00.000Z";
                        lastUpdated := "2024-01-01T00:00:00.000Z" |};
     implementation_status := {| overall_progress := "unknown"; components := [] |};
     architecture := {| technologies := []; decisions := [] |};
     working_solutions := [];
     current_priorities := [];
     conversations := [];
     metadata := {| version := "1.0.0";
                    created_at := "2024-01-01T00:00:00.000Z";
                    last_updated := "2024-01-01T00:00:00.000Z" |} |}.

Definition with_decisions (ds : list ArchitectureDecision) : ProjectMemory :=
  set_decisions fresh_memory ds.

Definition empty_disk : Disk :=
  {| memory_file := None; context_file := None; backup_dir := [] |}.

Definition store_of (cfg : ServerConfig) (m : ProjectMemory) : Store :=
  {| projectRoot := "/tmp/proj"; config := cfg; memory := m; disk := empty_disk |}.

Definition fresh_store : Store := store_of defaultConfig fresh_memory.

(** A call during which no file operation fails. *)
Definition quiet : Env :=
  {| now := "2024-06-01T12:00:00.000Z";
     generated_id := "lwx1abcd0k3";
     detected_type := "Node.js/JavaScript";
     pre_backup := {| backup_now := "2024-06-01T12:00:00.001Z"; backup_fails := false;
                                  backup_written := None |};
     save := {| save_now := "2024-06-01T12:00:00.002Z";
                memory_write_error := None;
                context_write_error := None;
                save_backup := {| backup_now := "2024-06-01T12:00:00.003Z";
                                  backup_fails := false;
                                  backup_written := None |} |} |}.

(** One decision about React, searched with a two-word query. *)
Definition react_decision : ArchitectureDecision :=
  decision_of "d1" "use react for frontend" "component model".

(** Three decisions matched by the query ["react "], which ends in a
    space; the second one has a trailing space of its own. *)
Definition preact : ArchitectureDecision :=
  decision_of "d1" "Preact is ok" "small".
Definition react_trailing : ArchitectureDecision :=
  decision_of "d2" "Use React " "fast".
Definition react_plain : ArchitectureDecision :=
  decision_of "d3" "React is ok" "known".

Definition trailing_space_memory : ProjectMemory :=
  with_decisions [preact; react_trailing; react_plain].

(** A configuration that keeps no conversation history. *)
Definition no_history : ServerConfig :=
  {| max_conversation_history := 0;
     backup_enabled := true;
     backup_interval := 3600;
     compression_enabled := false;
     auto_detect_project_type := true |}.

(** A memory file whose [working_solutions] is an array. *)
Definition solutions_as_array : JSValue :=
  JSObject [("working_solutions", JSArray [JSString "restart the server"])].

(** Arguments with a status outside the enumeration and a progress
    outside 0..100. *)
Definition bogus_status_args : JSValue :=
  JSObject [("component", JSString "api");
            ("status", JSString "bogus");
            ("progress", JSNumber 150)].

End Sample.

(* ================================================================== *)
(** ** Start-up ([loadConfig], [loadMemory], [detectProjectType]) *)

(** What reading a JSON file gives: no such file, a read or parse error,
    or the parsed value. *)
Inductive file_read : Type :=
| Absent
| Unreadable (error : string)
| Parsed (value : JSValue).

(** [path.join(root, name)] for a resolved root and a plain file name. *)
Definition path_join (root file : string) : string := root +++ "/" +++ file.

(** [detectProjectType]: the first marker file found decides;
    [existsSync] tells which paths exist. *)
Definition detectProjectType (projectRoot : string) (existsSync : string -> bool)
    : string :=
  if existsSync (path_join projectRoot "package.json") then "Node.js/JavaScript"
  else if existsSync (path_join projectRoot "requirements.txt")
          || existsSync (path_join projectRoot "pyproject.toml") then "Python"
  else if existsSync (path_join projectRoot "Cargo.toml") then "Rust"
  else if existsSync (path_join projectRoot "go.mod") then "Go"
  else if existsSync (path_join projectRoot "pom.xml") then "Java/Maven"
  else if existsSync (path_join projectRoot "build.gradle") then "Java/Gradle"
  else if existsSync (path_join projectRoot "docker-compose.yml")
       then "Docker/Microservices"
  else "unknown".

Definition marker_files : list string :=
  ["package.json"; "requirements.txt"; "pyproject.toml"; "Cargo.toml"; "go.mod";
   "pom.xml"; "build.gradle"; "docker-compose.yml"].

(** A path segment: no slash in it. *)
Fixpoint no_slash (s : string) : bool :=
  match s with
  | EmptyString => true
  | String c r => negb (Ascii.eqb c "/"%char) && no_slash r
  end.

(** The object literal at the end of [loadMemory]. *)
Definition default_memory (st : Store) (e : Env) : LoadedMemory :=
  let projectName := JSString (basename (projectRoot st)) in
  let now := JSString (now e) in
  {| l_project_info :=
       {| l_name := projectName;
          l_type := if auto_detect_project_type (config st)
                    then JSString (detected_type e) else JSString "unknown";
          l_description := JSString "";
          l_createdAt := now;
          l_lastUpdated := now |};
     l_implementation_status :=
       {| l_overall_progress := JSString "unknown"; l_components := JSObject [] |};
     l_architecture := {| l_technologies := JSArray []; l_decisions := JSArray [] |};
     l_working_solutions := JSObject [];
     l_current_priorities := JSArray [];
     l_conversations := JSArray [];
     l_metadata := {| l_version := JSString "1.0.0";
                      l_created_at := now;
                      l_last_updated := now |} |}.

(** [loadMemory]: a file that parses goes through
    [validateAndMigrateMemory]; a missing file and a file that cannot be
    read give the default structure. *)
Definition loadMemory (st : Store) (e : Env) (file : file_read) : LoadedMemory :=
  match file with
  | Parsed loadedMemory => validateAndMigrateMemory st e loadedMemory
  | Unreadable _ | Absent => default_memory st e
  end.

(** [{...a, ...b}] on own properties: those of [b] are set on a copy of
    [a], one by one. *)
Definition spread (a b : list (string * JSValue)) : list (string * JSValue) :=
  fold_left (fun o kv => Dict.set o (fst kv) (snd kv)) b a.

(** The entries of an array or of a string, keyed by index. *)
Fixpoint indexed (i : nat) (items : list JSValue) : list (string * JSValue) :=
  match items with
  | [] => []
  | x :: rest => (Str.of_Z (Z.of_nat i), x) :: indexed (S i) rest
  end.

Fixpoint characters (s : string) : list JSValue :=
  match s with
  | EmptyString => []
  | String c r => JSString (String c EmptyString) :: characters r
  end.

(** The own enumerable properties that a spread copies: the fields of an
    object, the elements of an array and the characters of a string by
    index, nothing of the other values. *)
Definition own_properties (v : JSValue) : list (string * JSValue) :=
  match v with
  | JSObject fields => fields
  | JSArray items => indexed 0 items
  | JSString s => indexed 0 (characters s)
  | _ => []
  end.

(** [defaultConfig] as the object it is. *)
Definition defaultConfig_object : list (string * JSValue) :=
  [("max_conversation_history", JSNumber 100);
   ("backup_enabled", JSBool true);
   ("backup_interval", JSNumber 3600);
   ("compression_enabled", JSBool false);
   ("auto_detect_project_type", JSBool true)].

(** [loadConfig]: the parsed file is spread over the defaults; no file
    and a file that cannot be read give the defaults. *)
Definition loadConfig (file : file_read) : list (string * JSValue) :=
  match file with
  | Parsed userConfig => spread defaultConfig_object (own_properties userConfig)
  | Unreadable _ | Absent => defaultConfig_object
  end.

(** A key is an own property. *)
Definition has_key (o : list (string * JSValue)) (k : string) : bool :=
  existsb (fun kv => String.eqb k (fst kv)) o.

(** The value a key has after a spread of [b]: the last one [b] gives it. *)
Definition last_value (b : list (string * JSValue)) (k : string) : JSValue :=
  JS.lookup (rev b) k.

(** The property that each handler destructures first, which the
    TypeError names when the arguments are [undefined] or [null]. *)
Definition first_property (name : string) : string :=
  if String.eqb name "update_implementation_status" then "component"
  else if String.eqb name "add_architecture_decision" then "decision"
  else if String.eqb name "add_working_solution" then "problem"
  else if String.eqb name "update_priorities" then "priorities"
  else if String.eqb name "search_memory" then "query"
  else if String.eqb name "log_conversation_context" then "summary"
  else "scope".

(** The message of that TypeError: the pattern of [clear_memory] gives
    its first property a default, the other six do not. *)
Definition no_arguments_error (name : string) (args : JSValue) : string :=
  if String.eqb name "clear_memory"
  then read_property_error (first_property name) args
  else destructure_error (first_property name) args.

(* ================================================================== *)
(** ** More sample data *)

Module Sample2.

(** A query without an empty token and two decisions it matches. *)
Definition two_decisions : ProjectMemory :=
  Sample.with_decisions
    [Sample.decision_of "d1" "Preact is ok" "small";
     Sample.decision_of "d2" "React is ok" "known"].

(** A save whose first write is rejected. *)
Definition disk_full : Env :=
  {| now := "2024-06-01T12:00:00.000Z";
     generated_id := "lwx1abcd0k3";
     detected_type := "Node.js/JavaScript";
     pre_backup := {| backup_now := "2024-06-01T12:00:00.001Z"; backup_fails := false;
                                  backup_written := None |};
     save := {| save_now := "2024-06-01T12:00:00.002Z";
                memory_write_error := Some "ENOSPC: no space left on device";
                context_write_error := None;
                save_backup := {| backup_now := "2024-06-01T12:00:00.003Z";
                                  backup_fails := false;
                                  backup_written := None |} |} |}.

(** A save during which the backup fails. *)
Definition backup_denied : SaveEnv :=
  {| save_now := "2024-06-01T12:00:00.002Z";
     memory_write_error := None;
     context_write_error := None;
     save_backup := {| backup_now := "2024-06-01T12:00:00.003Z";
                       backup_fails := true;
                                  backup_written := None |} |}.

(** A save during which the backup file is written and the listing of
    the backup directory is rejected. *)
Definition listing_denied : SaveEnv :=
  {| save_now := "2024-06-01T12:00:00.002Z";
     memory_write_error := None;
     context_write_error := None;
     save_backup := {| backup_now := "2024-06-01T12:00:00.003Z";
                       backup_fails := true;
                       backup_written := Some 0%nat |} |}.

(** A call of [clearMemory] whose own backup fails while the save goes
    through. *)
Definition pre_backup_denied : Env :=
  {| now := "2024-06-01T12:00:00.000Z";
     generated_id := "lwx1abcd0k3";
     detected_type := "Node.js/JavaScript";
     pre_backup := {| backup_now := "2024-06-01T12:00:00.001Z"; backup_fails := true;
                                  backup_written := None |};
     save := save Sample.quiet |}.

(** A store that keeps two conversations, and seven calls to log. *)
Definition cap_two : ServerConfig :=
  {| max_conversation_history := 2;
     backup_enabled := false;
     backup_interval := 3600;
     compression_enabled := false;
     auto_detect_project_type := true |}.

Definition seven_calls : list (Env * string) :=
  map (fun s => (Sample.quiet, s)) ["c1"; "c2"; "c3"; "c4"; "c5"; "c6"; "c7"].

(** A memory file with well-shaped sections. *)
Definition well_shaped : JSValue :=
  JSObject [("project_info", JSObject [("name", JSString "shop")]);
            ("architecture", JSObject [("technologies", JSArray [JSString "node"])]);
            ("working_solutions", JSObject [("k1", JSObject [])]);
            ("conversations", JSArray [JSObject [("summary", JSString "kickoff")]])].

(** A project root that holds a [package.json] and a [Cargo.toml]. *)
Definition node_and_rust (path : string) : bool :=
  String.eqb path "/tmp/proj/package.json" || String.eqb path "/tmp/proj/Cargo.toml".

(** A configuration file that names one setting and one unknown key. *)
Definition short_history : JSValue :=
  JSObject [("max_conversation_history", JSNumber 5); ("theme", JSString "dark")].

(** Twelve backups, named by day. *)
Definition twelve_backups : dict ProjectMemory :=
  map (fun d => ("memory_backup_2024-05-" +++ d +++ "T00-00-00-000Z.json",
                 Sample.fresh_memory))
      ["01"; "02"; "03"; "04"; "05"; "06"; "07"; "08"; "09"; "10"; "11"; "12"].

Definition store_with_backups : Store :=
  {| projectRoot := "/tmp/proj"; config := defaultConfig;
     memory := Sample.fresh_memory;
     disk := {| memory_file := None; context_file := None;
                backup_dir := ("notes.txt", Sample.fresh_memory) :: twelve_backups |} |}.

(** A store that holds one decision. *)
Definition one_decision : Store :=
  Sample.store_of defaultConfig (Sample.with_decisions [Sample.react_decision]).


(** Arguments of [clear_memory] whose [scope] has an own [toString]. *)
Definition scope_with_toString : JSValue :=
  JSObject [("scope", JSObject [("toString", JSNumber 1)])].



End Sample2.

(* ================================================================== *)
(** * Facts about strings *)

Module StrFacts.
Import Str.

Lemma append_empty_r (s : string) : s +++ "" = s.
Proof. induction s as [|c s IH]; simpl; [reflexivity | now rewrite IH]. Qed.

Lemma append_assoc (a b c : string) : (a +++ b) +++ c = a +++ (b +++ c).
Proof. induction a as [|x a IH]; simpl; [reflexivity | now rewrite IH]. Qed.

Lemma toLowerCase_append (a b : string) :
  toLowerCase (a +++ b) = toLowerCase a +++ toLowerCase b.
Proof. induction a as [|x a IH]; simpl; [reflexivity | now rewrite IH]. Qed.

Lemma startsWith_iff (s p : string) :
  startsWith s p = true <-> exists t, s = p +++ t.
Proof.
  revert s; induction p as [|a p IH]; intros s; simpl.
  - split; [intros _; now exists s | reflexivity].
  - destruct s as [|b s].
    + split; [discriminate | intros [t Ht]; discriminate].
    + rewrite andb_true_iff, Ascii.eqb_eq, IH. split.
      * intros [-> [t ->]]. now exists t.
      * intros [t Ht]. injection Ht as -> ->. split; [reflexivity | now exists t].
Qed.

Lemma includes_iff (s sub : string) :
  includes s sub = true <-> exists pre post, s = pre +++ sub +++ post.
Proof.
  induction s as [|c s IH]; simpl.
  - rewrite orb_false_r, startsWith_iff. split.
    + intros [t Ht]. now exists "", t.
    + intros [pre [post H]]. destruct pre; [now exists post | discriminate].
  - rewrite orb_true_iff, startsWith_iff, IH. split.
    + intros [[t Ht] | [pre [post H]]].
      * now exists "", t.
      * exists (String c pre), post. simpl. now rewrite H.
    + intros [pre [post H]]. destruct pre as [|x pre]; simpl in H.
      * left. now exists post.
      * right. injection H as _ H. now exists pre, post.
Qed.

Lemma includes_append_l (a b q : string) :
  includes a q = true -> includes (a +++ b) q = true.
Proof.
  rewrite !includes_iff. intros [pre [post ->]].
  exists pre, (post +++ b). now rewrite !append_assoc.
Qed.

Lemma includes_append_r (a b q : string) :
  includes b q = true -> includes (a +++ b) q = true.
Proof.
  rewrite !includes_iff. intros [pre [post ->]].
  exists (a +++ pre), post. now rewrite !append_assoc.
Qed.

Lemma includes_empty (s : string) : includes s "" = true.
Proof. destruct s; reflexivity. Qed.

(** Only the empty string occurs in the empty string. *)
Lemma includes_in_empty (q : string) : includes "" q = true -> q = "".
Proof. destruct q; simpl; [reflexivity | discriminate]. Qed.

Lemma same_up_to_case_lower (a b : string) :
  same_up_to_case a b = true -> toLowerCase a = toLowerCase b.
Proof.
  revert b; induction a as [|x a IH]; intros [|y b]; simpl; try discriminate.
  - reflexivity.
  - rewrite andb_true_iff, Ascii.eqb_eq. intros [-> H]. now rewrite (IH b H).
Qed.

Lemma split_space_nonempty (s : string) : split_space s <> [].
Proof.
  induction s as [|c s IH]; simpl; [discriminate|].
  destruct (is_space c); [discriminate|].
  destruct (split_space s); discriminate.
Qed.

End StrFacts.

(* ================================================================== *)
(** * Search: admission *)

(** A loop that pushes [f x] for every [x] passing [p] appends the
    filtered, mapped list. *)
Lemma fold_left_push (A B : Type) (p : A -> bool) (f : A -> B)
    (l : list A) (acc : list B) :
  fold_left (fun results x => if p x then results ++ [f x] else results) l acc
  = acc ++ map f (filter p l).
Proof.
  revert acc; induction l as [|x l IH]; intros acc; simpl.
  - now rewrite app_nil_r.
  - rewrite IH. destruct (p x); simpl; [now rewrite <- app_assoc | reflexivity].
Qed.

Lemma candidates_eq (memory : ProjectMemory) (query : string) :
  let q := Str.toLowerCase query in
  candidates memory query
  = map (fun d => hit "decision" q (DecisionData d))
        (filter (decision_matches q) (decisions (architecture memory)))
    ++ map (fun s => hit "solution" q (SolutionData s))
           (filter (solution_matches q) (Dict.values (working_solutions memory)))
    ++ map (fun c => hit "conversation" q (ConversationData c))
           (filter (conversation_matches q) (conversations memory)).
Proof.
  unfold candidates, scan_decisions, scan_solutions, scan_conversations; simpl.
  rewrite (fold_left_push (decision_matches (Str.toLowerCase query))
             (fun d => hit "decision" (Str.toLowerCase query) (DecisionData d))).
  rewrite (fold_left_push (solution_matches (Str.toLowerCase query))
             (fun s => hit "solution" (Str.toLowerCase query) (SolutionData s))).
  rewrite (fold_left_push (conversation_matches (Str.toLowerCase query))
             (fun c => hit "conversation" (Str.toLowerCase query) (ConversationData c))).
  simpl. now rewrite app_assoc.
Qed.

(** A matching field carries the query into the ranked text. *)
Lemma decision_text_includes (q : string) (d : ArchitectureDecision) :
  decision_matches q d = true ->
  Str.includes (Str.toLowerCase (record_text (DecisionData d))) q = true.
Proof.
  unfold decision_matches, record_text. rewrite orb_true_iff.
  rewrite !StrFacts.toLowerCase_append. intros [H | H].
  - now apply StrFacts.includes_append_l.
  - now apply StrFacts.includes_append_r, StrFacts.includes_append_r.
Qed.

Lemma solution_text_includes (q : string) (s : WorkingSolution) :
  solution_matches q s = true ->
  Str.includes (Str.toLowerCase (record_text (SolutionData s))) q = true.
Proof.
  unfold solution_matches, record_text. rewrite orb_true_iff.
  rewrite !StrFacts.toLowerCase_append. intros [H | H].
  - now apply StrFacts.includes_append_l.
  - now apply StrFacts.includes_append_r, StrFacts.includes_append_r.
Qed.

Lemma candidates_in (memory : ProjectMemory) (query : string) (r : SearchResult) :
  let q := Str.toLowerCase query in
  In r (candidates memory query) <->
    (exists d, In d (decisions (architecture memory))
               /\ decision_matches q d = true
               /\ r = hit "decision" q (DecisionData d))
    \/ (exists s, In s (Dict.values (working_solutions memory))
                  /\ solution_matches q s = true
                  /\ r = hit "solution" q (SolutionData s))
    \/ (exists c, In c (conversations memory)
                  /\ conversation_matches q c = true
                  /\ r = hit "conversation" q (ConversationData c)).
Proof.
  intros q. rewrite candidates_eq. fold q.
  rewrite !in_app_iff, !in_map_iff.
  split.
  - intros [[d [<- H]] | [[s [<- H]] | [c [<- H]]]];
      apply filter_In in H; destruct H as [Hin Hm].
    + left. now exists d.
    + right; left. now exists s.
    + right; right. now exists c.
  - intros [[d [Hin [Hm ->]]] | [[s [Hin [Hm ->]]] | [c [Hin [Hm ->]]]]].
    + left. exists d. split; [reflexivity | now apply filter_In].
    + right; left. exists s. split; [reflexivity | now apply filter_In].
    + right; right. exists c. split; [reflexivity | now apply filter_In].
Qed.

(** Every candidate passes the whole-string test on its ranked text. *)
Lemma candidates_whole_string (memory : ProjectMemory) (query : string)
    (r : SearchResult) :
  In r (candidates memory query) ->
  Str.includes (Str.toLowerCase (record_text (data r))) (Str.toLowerCase query) = true.
Proof.
  intros H. apply candidates_in in H.
  destruct H as [[d [_ [Hm ->]]] | [[s [_ [Hm ->]]] | [c [_ [Hm ->]]]]]; simpl.
  - now apply decision_text_includes.
  - now apply solution_text_includes.
  - exact Hm.
Qed.

(** C1, as the code has it: a record is admitted exactly when the
    lowercased query is a substring of one of its lowercased fields
    (decision or rationale; problem or solution; summary).  Tokens play no
    part in admission, and every admitted record passes the whole-string
    test on its ranked text. *)
Theorem searchMemory_admission (memory : ProjectMemory) (query : string)
    (r : SearchResult) :
  (In r (candidates memory query) <->
     (exists d, In d (decisions (architecture memory))
                /\ (Str.includes (Str.toLowerCase (decision d)) (Str.toLowerCase query)
                    || Str.includes (Str.toLowerCase (rationale d)) (Str.toLowerCase query))
                   = true
                /\ r = hit "decision" (Str.toLowerCase query) (DecisionData d))
     \/ (exists s, In s (Dict.values (working_solutions memory))
                   /\ (Str.includes (Str.toLowerCase (problem s)) (Str.toLowerCase query)
                       || Str.includes (Str.toLowerCase (solution s)) (Str.toLowerCase query))
                      = true
                   /\ r = hit "solution" (Str.toLowerCase query) (SolutionData s))
     \/ (exists c, In c (conversations memory)
                   /\ Str.includes (Str.toLowerCase (summary c)) (Str.toLowerCase query)
                      = true
                   /\ r = hit "conversation" (Str.toLowerCase query) (ConversationData c)))
  /\ (In r (candidates memory query) ->
      Str.includes (Str.toLowerCase (record_text (data r))) (Str.toLowerCase query)
      = true).
Proof.
  split.
  - exact (candidates_in memory query r).
  - exact (@candidates_whole_string memory query r).
Qed.

(** C1 as stated fails: the query token [react] occurs in the text token
    [react], so the stated test admits the record, and the search does
    not. *)
Lemma searchMemory_admission_counterexample :
  spec_admits "react native" (record_text (DecisionData Sample.react_decision)) = true
  /\ candidates (Sample.with_decisions [Sample.react_decision]) "react native" = []
  /\ searchMemory (Sample.with_decisions [Sample.react_decision]) "react native" 10 = [].
Proof. repeat split; reflexivity. Qed.

(** A query that straddles the two fields is in the ranked text and is not
    admitted either. *)
Example searchMemory_admission_across_fields :
  let d := Sample.decision_of "d1" "use react" "native apps" in
  Str.includes (Str.toLowerCase (record_text (DecisionData d))) "react native" = true
  /\ candidates (Sample.with_decisions [d]) "react native" = [].
Proof. split; reflexivity. Qed.

(** The end-to-end scenario of the specification: "postgres" finds the
    decision "Use PostgreSQL". *)
Example searchMemory_postgres :
  let d := Sample.decision_of "d1" "Use PostgreSQL" "ACID compliance" in
  map sr_type (searchMemory (Sample.with_decisions [d]) "postgres" 10) = ["decision"].
Proof. reflexivity. Qed.

(* ================================================================== *)
(** * Search: case of the query *)

(** The query enters the search only through [toLowerCase]. *)
Lemma searchMemory_lowered (memory : ProjectMemory) (q1 q2 : string) (limit : Z) :
  Str.toLowerCase q1 = Str.toLowerCase q2 ->
  searchMemory memory q1 limit = searchMemory memory q2 limit.
Proof.
  intros H. unfold searchMemory, candidates. now rewrite H.
Qed.




(** Queries that differ only in the case of the letters A-Z have the same
    lower-case form, and so the same results. *)
Lemma searchMemory_ascii_case (memory : ProjectMemory) (q1 q2 : string) (limit : Z) :
  Str.same_up_to_case q1 q2 = true ->
  searchMemory memory q1 limit = searchMemory memory q2 limit.
Proof.
  intros H. apply searchMemory_lowered. now apply StrFacts.same_up_to_case_lower.
Qed.

(** The three spellings of the specification find the one record, with
    the same score. *)
Example searchMemory_react_spellings :
  let m := Sample.with_decisions
             [Sample.decision_of "d1" "Use React for frontend" "hooks"] in
  map relevance (searchMemory m "react" 10) = [Num.Fin (55 # 5)]
  /\ searchMemory m "REACT" 10 = searchMemory m "react" 10
  /\ searchMemory m "React" 10 = searchMemory m "react" 10.
Proof. repeat split; reflexivity. Qed.

(* ================================================================== *)
(** * Search: the score *)

Lemma score_text_words_eq (queryWord : string) (textWords : list string)
    (score : Num.number) :
  score_text_words queryWord textWords score
  = fold_left Num.add
      (map (fun t => Num.div_length (String.length queryWord) (String.length t))
           (filter (fun t => Str.includes t queryWord) textWords))
      score.
Proof.
  unfold score_text_words. revert score.
  induction textWords as [|t ts IH]; intros score; simpl; [reflexivity|].
  rewrite IH. now destruct (Str.includes t queryWord).
Qed.

(** The two nested loops of [calculateRelevance] add the ratios of the
    matching pairs to the bonus, query tokens outermost. *)
Lemma calculateRelevance_formula (query text : string) :
  calculateRelevance query text = spec_score query text.
Proof.
  unfold calculateRelevance, spec_score, spec_ratios.
  replace (if Str.includes (Str.toLowerCase text) query
           then Num.add Num.zero Num.ten else Num.zero)
    with (if Str.includes (Str.toLowerCase text) query then Num.ten else Num.zero)
    by (destruct (Str.includes (Str.toLowerCase text) query); reflexivity).
  generalize (if Str.includes (Str.toLowerCase text) query then Num.ten else Num.zero).
  generalize (Str.split_space (Str.toLowerCase text)) as tws.
  induction (Str.split_space query) as [|q qs IH]; intros tws score; simpl.
  - reflexivity.
  - rewrite fold_left_app, <- score_text_words_eq. apply IH.
Qed.

Lemma length_zero (s : string) : String.length s = O -> s = "".
Proof. destruct s; [reflexivity | discriminate]. Qed.

Lemma div_length_nonneg (a b : nat) :
  b <> O -> exists q, Num.div_length a b = Num.Fin q /\ (0 <= q)%Q.
Proof.
  intros Hb. destruct b as [|b]; [contradiction|].
  eexists; split; [reflexivity|]. unfold Qle; simpl. lia.
Qed.

Lemma score_text_words_ten_or_NaN (queryWord : string) (textWords : list string)
    (score : Num.number) :
  ten_or_NaN score -> ten_or_NaN (score_text_words queryWord textWords score).
Proof.
  unfold score_text_words. revert score.
  induction textWords as [|t ts IH]; intros score H; simpl; [exact H|].
  apply IH. destruct (Str.includes t queryWord) eqn:Hinc; [|exact H].
  destruct (Nat.eq_dec (String.length t) 0) as [Hz | Hnz].
  - apply length_zero in Hz. subst t.
    apply StrFacts.includes_in_empty in Hinc. subst queryWord. simpl.
    left. destruct score; reflexivity.
  - destruct (div_length_nonneg (String.length queryWord) Hnz) as [y [-> Hy]].
    destruct H as [-> | [x [-> Hx]]]; [now left|].
    right. exists (x + y)%Q. split; [reflexivity | lra].
Qed.

Lemma score_text_words_at_least_ten (queryWord : string) (textWords : list string)
    (score : Num.number) :
  queryWord <> "" ->
  at_least_ten score -> at_least_ten (score_text_words queryWord textWords score).
Proof.
  intros Hq. unfold score_text_words. revert score.
  induction textWords as [|t ts IH]; intros score H; simpl; [exact H|].
  apply IH. destruct (Str.includes t queryWord) eqn:Hinc; [|exact H].
  destruct (Nat.eq_dec (String.length t) 0) as [Hz | Hnz].
  - apply length_zero in Hz. subst t.
    apply StrFacts.includes_in_empty in Hinc. contradiction.
  - destruct (div_length_nonneg (String.length queryWord) Hnz) as [y [-> Hy]].
    destruct H as [x [-> Hx]].
    exists (x + y)%Q. split; [reflexivity | lra].
Qed.

(** With the exact-match bonus in, the score is NaN or at least 10. *)
Lemma calculateRelevance_ten_or_NaN (query text : string) :
  Str.includes (Str.toLowerCase text) query = true ->
  ten_or_NaN (calculateRelevance query text).
Proof.
  intros H. unfold calculateRelevance. rewrite H.
  assert (H0 : ten_or_NaN (Num.add Num.zero Num.ten)).
  { right. exists 10%Q. split; [reflexivity | lra]. }
  revert H0. generalize (Num.add Num.zero Num.ten).
  induction (Str.split_space query) as [|q qs IH]; intros score Hs; simpl.
  - exact Hs.
  - apply IH. now apply score_text_words_ten_or_NaN.
Qed.

(** When no token of the query is empty, the score is finite and at least
    10. *)
Lemma calculateRelevance_at_least_ten (query text : string) :
  Str.includes (Str.toLowerCase text) query = true ->
  Forall (fun w => w <> "") (Str.split_space query) ->
  at_least_ten (calculateRelevance query text).
Proof.
  intros H Htok. unfold calculateRelevance. rewrite H.
  assert (H0 : at_least_ten (Num.add Num.zero Num.ten)).
  { exists 10%Q. split; [reflexivity | lra]. }
  revert H0. generalize (Num.add Num.zero Num.ten).
  induction Htok as [|q qs Hq _ IH]; intros score Hs; simpl.
  - exact Hs.
  - apply IH. now apply score_text_words_at_least_ten.
Qed.

(** Every candidate's score is NaN or at least 10. *)
Lemma candidates_ten_or_NaN (memory : ProjectMemory) (query : string)
    (r : SearchResult) :
  In r (candidates memory query) -> ten_or_NaN (relevance r).
Proof.
  intros H. pose proof (candidates_whole_string _ _ _ H) as Hw.
  apply candidates_in in H.
  destruct H as [[d [_ [_ ->]]] | [[s [_ [_ ->]]] | [c [_ [_ ->]]]]];
    apply calculateRelevance_ten_or_NaN; exact Hw.
Qed.

(** For a query without an empty token, every candidate's score is finite
    and at least 10. *)
Lemma candidates_at_least_ten (memory : ProjectMemory) (query : string)
    (r : SearchResult) :
  Forall (fun w => w <> "") (Str.split_space (Str.toLowerCase query)) ->
  In r (candidates memory query) -> at_least_ten (relevance r).
Proof.
  intros Htok H. pose proof (candidates_whole_string _ _ _ H) as Hw.
  apply candidates_in in H.
  destruct H as [[d [_ [_ ->]]] | [[s [_ [_ ->]]] | [c [_ [_ ->]]]]];
    apply calculateRelevance_at_least_ten; assumption.
Qed.

(* ================================================================== *)
(** * Search: the order of the results *)

Lemma insert_permutation (A : Type) (cmp : A -> A -> Num.number) (x : A) (l : list A) :
  Permutation (Arr.insert cmp x l) (x :: l).
Proof.
  induction l as [|y l IH]; simpl; [reflexivity|].
  destruct (Arr.sort_compare cmp x y); try reflexivity.
  rewrite IH. apply perm_swap.
Qed.

(** The sort rearranges and neither drops nor invents an element, whatever
    the comparator. *)
Lemma sort_permutation (A : Type) (cmp : A -> A -> Num.number) (l : list A) :
  Permutation (Arr.sort cmp l) l.
Proof.
  induction l as [|x l IH]; simpl; [reflexivity|].
  rewrite insert_permutation. now constructor.
Qed.

Lemma slice_to_firstn (A : Type) (l : list A) (e : Z) :
  (0 <= e)%Z -> Arr.slice_to l e = firstn (Z.to_nat e) l.
Proof.
  intros He. unfold Arr.slice_to, Arr.clamp.
  destruct (e <? 0)%Z eqn:Hneg; [apply Z.ltb_lt in Hneg; lia|].
  destruct (Z.le_gt_cases e (Z.of_nat (List.length l))) as [Hle | Hgt].
  - now rewrite Z.min_l.
  - rewrite Z.min_r by lia. rewrite Nat2Z.id.
    rewrite !firstn_all2; [reflexivity | lia | lia].
Qed.

Lemma finite_inv (r : SearchResult) :
  Num.isFinite (relevance r) = true -> exists q, relevance r = Num.Fin q.
Proof. destruct (relevance r); try discriminate. intros _. now eexists. Qed.

Lemma by_relevance_finite (a b : SearchResult) (qa qb : Q) :
  relevance a = Num.Fin qa -> relevance b = Num.Fin qb ->
  Arr.sort_compare by_relevance a b = (qb + - qa ?= 0)%Q.
Proof.
  intros Ha Hb. unfold Arr.sort_compare, by_relevance, Num.sub.
  now rewrite Ha, Hb.
Qed.

Lemma not_below_finite (a b : SearchResult) (qa qb : Q) :
  relevance a = Num.Fin qa -> relevance b = Num.Fin qb ->
  (not_below a b <-> (qb <= qa)%Q).
Proof.
  intros Ha Hb. unfold not_below. rewrite Ha, Hb. simpl. apply Qle_bool_iff.
Qed.

(** [x] stays in front of [y :: l] when [y] does not outrank it. *)
Ltac keep_in_front Ex Ey Hl Hy :=
  constructor; [now constructor|]; constructor;
  [ apply (not_below_finite _ _ Ex Ey); lra
  | rewrite Forall_forall in *; intros z Hz;
    let qz := fresh "qz" in
    let Ez := fresh "Ez" in
    destruct (finite_inv _ (Hl z Hz)) as [qz Ez];
    apply (not_below_finite _ _ Ex Ez);
    pose proof (proj1 (not_below_finite _ _ Ey Ez) (Hy z Hz)); lra ].

Lemma insert_sorted (x : SearchResult) (l : list SearchResult) :
  all_finite (x :: l) ->
  StronglySorted not_below l ->
  StronglySorted not_below (Arr.insert by_relevance x l).
Proof.
  intros Hfin Hs. induction Hs as [|y l Hs IH Hy]; simpl.
  - repeat constructor.
  - inversion Hfin as [|? ? Hx Hyl]; subst.
    inversion Hyl as [|? ? Hyf Hl]; subst.
    destruct (finite_inv _ Hx) as [qx Ex], (finite_inv _ Hyf) as [qy Ey].
    rewrite (by_relevance_finite _ _ Ex Ey).
    destruct (qy + - qx ?= 0)%Q eqn:Hc.
    + apply Qeq_alt in Hc. keep_in_front Ex Ey Hl Hy.
    + apply Qlt_alt in Hc. keep_in_front Ex Ey Hl Hy.
    + apply Qgt_alt in Hc.
      constructor.
      * apply IH. now constructor.
      * apply (Permutation_Forall (Permutation_sym (insert_permutation by_relevance x l))).
        constructor; [|exact Hy].
        apply (not_below_finite _ _ Ey Ex). lra.
Qed.

(** With finite scores the sorted array is in descending order. *)
Lemma sort_sorted (l : list SearchResult) :
  all_finite l -> StronglySorted not_below (Arr.sort by_relevance l).
Proof.
  induction l as [|x l IH]; intros Hfin; simpl; [constructor|].
  inversion Hfin as [|? ? Hx Hl]; subst.
  apply insert_sorted; [|now apply IH].
  constructor; [exact Hx|].
  apply (Permutation_Forall (Permutation_sym (sort_permutation by_relevance l)) Hl).
Qed.

Lemma insert_with_score (s : Num.number) (x : SearchResult) (l : list SearchResult) :
  all_finite (x :: l) ->
  with_score s (Arr.insert by_relevance x l) = with_score s (x :: l).
Proof.
  induction l as [|y l IH]; intros Hfin; [reflexivity|].
  inversion Hfin as [|? ? Hx Hyl]; subst.
  inversion Hyl as [|? ? Hyf Hl]; subst.
  destruct (finite_inv _ Hx) as [qx Ex], (finite_inv _ Hyf) as [qy Ey].
  cbn [Arr.insert]. rewrite (by_relevance_finite _ _ Ex Ey).
  destruct (qy + - qx ?= 0)%Q eqn:Hc; try reflexivity.
  apply Qgt_alt in Hc.
  unfold with_score in *. cbn [filter].
  rewrite IH by now constructor. cbn [filter].
  rewrite Ex, Ey.
  destruct s as [qs | | |]; simpl; try reflexivity.
  destruct (Qeq_bool qx qs) eqn:E1, (Qeq_bool qy qs) eqn:E2; try reflexivity.
  apply Qeq_bool_iff in E1, E2. lra.
Qed.

(** With finite scores the sort is stable: the results of equal score keep
    the order of the scan. *)
Lemma sort_stable (s : Num.number) (l : list SearchResult) :
  all_finite l ->
  with_score s (Arr.sort by_relevance l) = with_score s l.
Proof.
  induction l as [|x l IH]; intros Hfin; [reflexivity|].
  inversion Hfin as [|? ? Hx Hl]; subst.
  cbn [Arr.sort fold_right]. fold (Arr.sort by_relevance l).
  rewrite insert_with_score.
  - unfold with_score in *. cbn [filter]. now rewrite IH.
  - constructor; [exact Hx|].
    apply (Permutation_Forall (Permutation_sym (sort_permutation by_relevance l)) Hl).
Qed.

(** What the search returns when every candidate's score is finite and the
    limit is not negative: the first [limit] entries of the candidates in
    descending order of score, equal scores in scan order. *)
Lemma searchMemory_ranked (memory : ProjectMemory) (query : string) (limit : Z) :
  all_finite (candidates memory query) ->
  (0 <= limit)%Z ->
  exists ranked,
    Permutation ranked (candidates memory query)
    /\ StronglySorted not_below ranked
    /\ (forall s, with_score s ranked = with_score s (candidates memory query))
    /\ searchMemory memory query limit = firstn (Z.to_nat limit) ranked.
Proof.
  intros Hfin Hlim. exists (Arr.sort by_relevance (candidates memory query)).
  split; [apply sort_permutation|].
  split; [now apply sort_sorted|].
  split; [intros s; now apply sort_stable|].
  unfold searchMemory. now apply slice_to_firstn.
Qed.

(** The scores of the candidates are finite when the query has no empty
    token. *)
Lemma candidates_all_finite (memory : ProjectMemory) (query : string) :
  Forall (fun w => w <> "") (Str.split_space (Str.toLowerCase query)) ->
  all_finite (candidates memory query).
Proof.
  intros Htok. apply Forall_forall. intros r Hr.
  destruct (candidates_at_least_ten _ _ _ Htok Hr) as [q [-> _]]. reflexivity.
Qed.

(** What is returned was a candidate. *)
Lemma searchMemory_in_candidates (memory : ProjectMemory) (query : string)
    (limit : Z) (r : SearchResult) :
  In r (searchMemory memory query limit) -> In r (candidates memory query).
Proof.
  unfold searchMemory, Arr.slice_to. intros H.
  apply (Permutation_in _ (sort_permutation by_relevance _)).
  rewrite <- (firstn_skipn (Arr.clamp (List.length (Arr.sort by_relevance (candidates memory query))) limit)).
  apply in_or_app. now left.
Qed.

(* ================================================================== *)
(** * The store: what saving and backing up leave alone *)

Lemma createBackup_memory (st : Store) (e : BackupEnv) :
  memory (createBackup st e) = memory st.
Proof. unfold createBackup. now destruct (backup_fails e), (backup_written e). Qed.

Lemma createBackup_memory_file (st : Store) (e : BackupEnv) :
  memory_file (disk (createBackup st e)) = memory_file (disk st).
Proof. unfold createBackup. now destruct (backup_fails e), (backup_written e). Qed.

Lemma createBackup_context_file (st : Store) (e : BackupEnv) :
  context_file (disk (createBackup st e)) = context_file (disk st).
Proof. unfold createBackup. now destruct (backup_fails e), (backup_written e). Qed.

Lemma createBackup_config (st : Store) (e : BackupEnv) :
  config (createBackup st e) = config st.
Proof. unfold createBackup. now destruct (backup_fails e), (backup_written e). Qed.

(** Whether or not the writes succeed, [saveMemory] leaves in memory the
    value it was given with a new [last_updated]. *)
Lemma saveMemory_memory (st : Store) (e : SaveEnv) :
  memory (fst (saveMemory st e)) = set_last_updated (memory st) (save_now e).
Proof.
  unfold saveMemory.
  destruct (memory_write_error e); [reflexivity|].
  destruct (context_write_error e); [reflexivity|]. simpl.
  destruct (backup_enabled (config st)); [apply createBackup_memory | reflexivity].
Qed.

Lemma saveMemory_config (st : Store) (e : SaveEnv) :
  config (fst (saveMemory st e)) = config st.
Proof.
  unfold saveMemory.
  destruct (memory_write_error e); [reflexivity|].
  destruct (context_write_error e); [reflexivity|]. simpl.
  destruct (backup_enabled (config st)); [|reflexivity].
  now rewrite createBackup_config.
Qed.

(* ================================================================== *)
(** * The store: clearing *)

Lemma clearMemory_memory_known (st : Store) (e : Env) (scope : string)
    (flag : bool) (m' : ProjectMemory) :
  (let st0 := if flag then createBackup st (pre_backup e) else st in
   if String.eqb scope "all" then Ok (cleared_all st0 e)
   else if String.eqb scope "decisions" then Ok (set_decisions (memory st0) [])
   else if String.eqb scope "solutions" then Ok (set_working_solutions (memory st0) [])
   else if String.eqb scope "conversations" then Ok (set_conversations (memory st0) [])
   else if String.eqb scope "components" then Ok (set_components (memory st0) [] "unknown")
   else Throw (unknown_scope_message scope)) = Ok m' ->
  memory (fst (clearMemory st e scope flag)) = set_last_updated m' (save_now (save e)).
Proof.
  intros H. unfold clearMemory. cbv zeta in H. rewrite H.
  match goal with
  | |- context [saveMemory ?s ?v] =>
      pose proof (saveMemory_memory s v) as Hm; destruct (saveMemory s v) as [st' [u|msg]]
  end; simpl in *; exact Hm.
Qed.

(** C6: [clearMemory(scope, false)] with one of the four section scopes
    empties that section and leaves the data of every other section as it
    was, in every store state and whatever the save meets: "decisions"
    empties only [architecture.decisions]; "solutions" only
    [working_solutions]; "conversations" only [conversations];
    "components" empties [components] and resets [overall_progress] to
    "unknown". *)
Theorem clearMemory_frame (st : Store) (e : Env) :
  (let m' := memory (fst (clearMemory st e "decisions" false)) in
   decisions (architecture m') = []
   /\ technologies (architecture m') = technologies (architecture (memory st))
   /\ working_solutions m' = working_solutions (memory st)
   /\ conversations m' = conversations (memory st)
   /\ implementation_status m' = implementation_status (memory st)
   /\ current_priorities m' = current_priorities (memory st)
   /\ project_info m' = project_info (memory st))
  /\
  (let m' := memory (fst (clearMemory st e "solutions" false)) in
   working_solutions m' = []
   /\ architecture m' = architecture (memory st)
   /\ conversations m' = conversations (memory st)
   /\ implementation_status m' = implementation_status (memory st)
   /\ current_priorities m' = current_priorities (memory st)
   /\ project_info m' = project_info (memory st))
  /\
  (let m' := memory (fst (clearMemory st e "conversations" false)) in
   conversations m' = []
   /\ architecture m' = architecture (memory st)
   /\ working_solutions m' = working_solutions (memory st)
   /\ implementation_status m' = implementation_status (memory st)
   /\ current_priorities m' = current_priorities (memory st)
   /\ project_info m' = project_info (memory st))
  /\
  (let m' := memory (fst (clearMemory st e "components" false)) in
   components (implementation_status m') = []
   /\ overall_progress (implementation_status m') = "unknown"
   /\ architecture m' = architecture (memory st)
   /\ working_solutions m' = working_solutions (memory st)
   /\ conversations m' = conversations (memory st)
   /\ current_priorities m' = current_priorities (memory st)
   /\ project_info m' = project_info (memory st)).
Proof.
  repeat apply conj; cbv zeta;
    (erewrite clearMemory_memory_known by reflexivity); reflexivity.
Qed.

Lemma not_in_scopes (scope : string) :
  ~ In scope scopes ->
  String.eqb scope "all" = false
  /\ String.eqb scope "decisions" = false
  /\ String.eqb scope "solutions" = false
  /\ String.eqb scope "conversations" = false
  /\ String.eqb scope "components" = false.
Proof.
  intros H. repeat split; apply String.eqb_neq; intros ->; apply H; simpl; tauto.
Qed.

(** C10: with a scope outside the five, [clearMemory] throws its
    unknown-scope error with the memory held by the store exactly as it
    was, and with neither [project_memory.json] nor [current_context.json]
    written; only the backup asked for by [createBackup] has been
    attempted. *)
Theorem clearMemory_unknown_scope (st : Store) (e : Env) (scope : string)
    (flag : bool) :
  ~ In scope scopes ->
  clearMemory st e scope flag
  = (if flag then createBackup st (pre_backup e) else st,
     Throw (unknown_scope_message scope))
  /\ memory (fst (clearMemory st e scope flag)) = memory st
  /\ memory_file (disk (fst (clearMemory st e scope flag))) = memory_file (disk st)
  /\ context_file (disk (fst (clearMemory st e scope flag))) = context_file (disk st).
Proof.
  intros H. destruct (not_in_scopes H) as [H1 [H2 [H3 [H4 H5]]]].
  assert (E : clearMemory st e scope flag
              = (if flag then createBackup st (pre_backup e) else st,
                 Throw (unknown_scope_message scope))).
  { unfold clearMemory. now rewrite H1, H2, H3, H4, H5. }
  rewrite E. split; [reflexivity|]. simpl.
  destruct flag.
  - split; [apply createBackup_memory|].
    split; [apply createBackup_memory_file | apply createBackup_context_file].
  - repeat split.
Qed.

Lemma clearMemory_unknown_scope_witness :
  ~ In "bogus" scopes
  /\ clearMemory Sample.fresh_store Sample.quiet "bogus" true
     = (createBackup Sample.fresh_store (pre_backup Sample.quiet),
        Throw (unknown_scope_message "bogus"))
  /\ memory (fst (clearMemory Sample.fresh_store Sample.quiet "bogus" true))
     = memory Sample.fresh_store.
Proof.
  assert (H : ~ In "bogus" scopes).
  { simpl. intros [H | [H | [H | [H | [H | []]]]]]; discriminate. }
  split; [exact H|].
  destruct (@clearMemory_unknown_scope Sample.fresh_store Sample.quiet "bogus" true H)
    as [E [M _]].
  split; [exact E | exact M].
Defined.

(** The failed call has nevertheless written its backup. *)
Example clearMemory_unknown_scope_backup :
  Dict.keys (backup_dir (disk (fst (clearMemory Sample.fresh_store Sample.quiet "bogus" true))))
  = ["memory_backup_2024-06-01T12-00-00-001Z.json"]
  /\ snd (clearMemory Sample.fresh_store Sample.quiet "bogus" true)
     = Throw "Unknown scope: bogus. Use: all, decisions, solutions, conversations, or components".
Proof. split; reflexivity. Qed.

(* ================================================================== *)
(** * The store: the conversation cap *)

Lemma lastn_length (A : Type) (n : nat) (l : list A) :
  List.length (lastn n l) = Nat.min n (List.length l).
Proof. unfold lastn. rewrite length_skipn. lia. Qed.

Lemma lastn_app_lastn (A : Type) (n : nat) (l : list A) (x : A) :
  (1 <= n)%nat -> lastn n (lastn n l ++ [x]) = lastn n (l ++ [x]).
Proof.
  intros Hn. unfold lastn.
  rewrite !length_app, length_skipn. simpl.
  destruct (Nat.le_gt_cases (List.length l) n) as [Hle | Hgt].
  - replace (List.length l - n)%nat with O by lia. simpl.
    now rewrite Nat.sub_0_r.
  - replace (List.length l - (List.length l - n) + 1 - n)%nat with 1%nat by lia.
    replace (List.length l + 1 - n)%nat with (S (List.length l - n)) by lia.
    rewrite !skipn_app.
    rewrite length_skipn.
    replace (1 - (List.length l - (List.length l - n)))%nat with O by lia.
    replace (S (List.length l - n) - List.length l)%nat with O by lia.
    f_equal. rewrite skipn_skipn. f_equal.
Qed.

(** With a maximum of at least 1, one call leaves the last [max] entries
    of the sequence with the new entry appended. *)
Lemma logConversationContext_kept (st : Store) (e : Env) (summary : string)
    (dm sf : option (list string)) :
  (1 <= max_conversation_history (config st))%Z ->
  conversations (memory (fst (logConversationContext st e summary dm sf)))
  = lastn (Z.to_nat (max_conversation_history (config st)))
          (conversations (memory st) ++ [new_conversation e summary dm sf]).
Proof.
  intros Hmax. unfold logConversationContext. rewrite saveMemory_memory. simpl.
  set (pushed := conversations (memory st) ++ [new_conversation e summary dm sf]).
  set (n := max_conversation_history (config st)) in *.
  unfold lastn.
  destruct (n <? Z.of_nat (List.length pushed))%Z eqn:Hc.
  - apply Z.ltb_lt in Hc. unfold Arr.slice_from, Arr.clamp.
    replace (- n <? 0)%Z with true by (symmetry; apply Z.ltb_lt; lia).
    f_equal. lia.
  - apply Z.ltb_ge in Hc.
    replace (List.length pushed - Z.to_nat n)%nat with O by lia. reflexivity.
Qed.

Lemma logConversationContext_config (st : Store) (e : Env) (summary : string)
    (dm sf : option (list string)) :
  config (fst (logConversationContext st e summary dm sf)) = config st.
Proof. unfold logConversationContext. now rewrite saveMemory_config. Qed.

(** With a maximum of at least 1, the length after a call is at most the
    maximum, and what is kept is the tail of the appended sequence. *)
Lemma logConversationContext_capped (st : Store) (e : Env) (summary : string)
    (dm sf : option (list string)) :
  (1 <= max_conversation_history (config st))%Z ->
  let after := conversations (memory (fst (logConversationContext st e summary dm sf))) in
  (Z.of_nat (List.length after) <= max_conversation_history (config st))%Z
  /\ exists dropped,
       conversations (memory st) ++ [new_conversation e summary dm sf] = dropped ++ after.
Proof.
  intros Hmax after. unfold after. rewrite logConversationContext_kept by exact Hmax.
  split.
  - rewrite lastn_length. lia.
  - unfold lastn. eexists. symmetry. apply firstn_skipn.
Qed.

Lemma log_all_snoc (calls : list (Env * string)) (c : Env * string) (st : Store) :
  log_all st (calls ++ [c])
  = fst (logConversationContext (log_all st calls) (fst c) (snd c) None None).
Proof. unfold log_all. now rewrite fold_left_app. Qed.

Lemma log_all_config (calls : list (Env * string)) (st : Store) :
  config (log_all st calls) = config st.
Proof.
  induction calls as [|c calls IH] using rev_ind; [reflexivity|].
  now rewrite log_all_snoc, logConversationContext_config.
Qed.

(** With a maximum of at least 1, a run of calls leaves the last [max]
    entries of everything appended, in append order. *)
Lemma log_all_kept (calls : list (Env * string)) (st : Store) :
  (1 <= max_conversation_history (config st))%Z ->
  (Z.of_nat (List.length (conversations (memory st)))
   <= max_conversation_history (config st))%Z ->
  conversations (memory (log_all st calls))
  = lastn (Z.to_nat (max_conversation_history (config st)))
          (conversations (memory st)
           ++ map (fun c => new_conversation (fst c) (snd c) None None) calls).
Proof.
  intros Hmax Hlen.
  induction calls as [|c calls IH] using rev_ind.
  - simpl. rewrite app_nil_r. unfold lastn.
    replace (List.length (conversations (memory st))
             - Z.to_nat (max_conversation_history (config st)))%nat with O by lia.
    reflexivity.
  - rewrite log_all_snoc.
    rewrite logConversationContext_kept by (rewrite log_all_config; exact Hmax).
    rewrite log_all_config, IH.
    rewrite map_app, app_assoc. simpl.
    apply lastn_app_lastn. lia.
Qed.

(** The cap test of the specification: with max = N at least 1, appending
    N + 5 conversations to an empty sequence leaves exactly N entries, the
    N appended last. *)
Lemma log_all_cap_test (calls : list (Env * string)) (st : Store) (N : nat) :
  (1 <= N)%nat ->
  max_conversation_history (config st) = Z.of_nat N ->
  conversations (memory st) = [] ->
  List.length calls = (N + 5)%nat ->
  List.length (conversations (memory (log_all st calls))) = N
  /\ conversations (memory (log_all st calls))
     = map (fun c => new_conversation (fst c) (snd c) None None) (skipn 5 calls).
Proof.
  intros HN Hmax Hempty Hlen.
  rewrite log_all_kept by (rewrite ?Hempty, Hmax; simpl; lia).
  rewrite Hempty, Hmax, Nat2Z.id. simpl.
  split.
  - rewrite lastn_length, length_map. lia.
  - unfold lastn. rewrite length_map, Hlen.
    replace (N + 5 - N)%nat with 5%nat by lia.
    now rewrite skipn_map.
Qed.

(** C4 at max = 0: the guard [length > max] holds after the push, and
    [slice(-0)] is [slice(0)], the whole array; one entry stays where the
    cap allows none. *)
Theorem logConversationContext_zero_max :
  let st := Sample.store_of Sample.no_history Sample.fresh_memory in
  let after := conversations (memory (fst (logConversationContext st Sample.quiet "first" None None))) in
  max_conversation_history (config st) = 0%Z
  /\ conversations (memory st) = []
  /\ after = [new_conversation Sample.quiet "first" None None]
  /\ (Z.of_nat (List.length after) <=? max_conversation_history (config st))%Z = false.
Proof. repeat split. Qed.

(* ================================================================== *)
(** * Validation on load *)

Lemma opt_get_array (v : JSValue) (k : string) :
  JS.isArray (JS.opt_get v k) = true -> JS.isArray (JS.get v k) = true.
Proof. unfold JS.opt_get. destruct (JS.nullish v); [discriminate | trivial]. Qed.

Lemma opt_get_opt_get_array (v : JSValue) (k1 k2 : string) :
  JS.isArray (JS.opt_get (JS.opt_get v k1) k2) = true ->
  JS.isArray (JS.get (JS.get v k1) k2) = true.
Proof.
  intros H. apply opt_get_array in H. revert H.
  unfold JS.opt_get. destruct (JS.nullish v); [discriminate | trivial].
Qed.

(** The four sequences come out as arrays for every input, and
    [working_solutions] comes out as an object in the sense of [typeof]:
    a mapping or an array. *)
Lemma validateAndMigrateMemory_shapes (st : Store) (e : Env) (memory : JSValue) :
  let out := validateAndMigrateMemory st e memory in
  JS.isArray (l_current_priorities out) = true
  /\ JS.isArray (l_decisions (l_architecture out)) = true
  /\ JS.isArray (l_technologies (l_architecture out)) = true
  /\ JS.isArray (l_conversations out) = true
  /\ (JS.isMapping (l_working_solutions out) = true
      \/ JS.isArray (l_working_solutions out) = true).
Proof.
  cbv zeta. unfold validateAndMigrateMemory. cbn [l_current_priorities l_decisions
    l_technologies l_conversations l_working_solutions l_architecture].
  repeat split.
  - destruct (JS.isArray (JS.opt_get memory "current_priorities")) eqn:H;
      [now apply opt_get_array | reflexivity].
  - destruct (JS.isArray (JS.opt_get (JS.opt_get memory "architecture") "decisions")) eqn:H;
      [now apply opt_get_opt_get_array | reflexivity].
  - destruct (JS.isArray (JS.opt_get (JS.opt_get memory "architecture") "technologies")) eqn:H;
      [now apply opt_get_opt_get_array | reflexivity].
  - destruct (JS.isArray (JS.opt_get memory "conversations")) eqn:H;
      [now apply opt_get_array | reflexivity].
  - destruct (JS.truthy (JS.opt_get memory "working_solutions")
              && JS.typeof_object (JS.get memory "working_solutions")) eqn:H;
      [|now left].
    apply andb_true_iff in H. destruct H as [Ht Ho].
    unfold JS.opt_get in Ht. destruct (JS.nullish memory); [discriminate|].
    destruct (JS.get memory "working_solutions"); try discriminate; auto.
Qed.

(** [working_solutions] comes out as a mapping whenever the input's is no
    array. *)
Lemma validateAndMigrateMemory_mapping (st : Store) (e : Env) (memory : JSValue) :
  JS.isArray (JS.get memory "working_solutions") = false ->
  JS.isMapping (l_working_solutions (validateAndMigrateMemory st e memory)) = true.
Proof.
  intros H.
  destruct (validateAndMigrateMemory_shapes st e memory) as [_ [_ [_ [_ [Hm | Ha]]]]];
    [exact Hm|].
  revert Ha. unfold validateAndMigrateMemory. cbn [l_working_solutions].
  destruct (JS.truthy (JS.opt_get memory "working_solutions")
            && JS.typeof_object (JS.get memory "working_solutions"));
    [rewrite H|]; discriminate.
Qed.

(** C5 at a memory file whose [working_solutions] is an array: the test
    [typeof ... === 'object'] accepts it, and the array is returned where a
    mapping is required. *)
Theorem validateAndMigrateMemory_array_solutions :
  let out := validateAndMigrateMemory Sample.fresh_store Sample.quiet
               Sample.solutions_as_array in
  l_working_solutions out = JSArray [JSString "restart the server"]
  /\ JS.isArray (l_working_solutions out) = true
  /\ JS.isMapping (l_working_solutions out) = false.
Proof. repeat split. Qed.

(* ================================================================== *)
(** * The gateway *)

(** C3 at a call with a status outside the enumeration and a progress of
    150: the validation of the specification signals "Invalid status:
    bogus"; the gateway validates nothing, hands both values to the store,
    which records and saves them, and reports success. *)
Theorem handleToolCall_unvalidated :
  spec_validation "update_implementation_status" Sample.bogus_status_args
  = Some "Invalid status: bogus"
  /\ exists st',
       handleToolCall Sample.fresh_store Sample.quiet
         "update_implementation_status" Sample.bogus_status_args
       = Some (st', Plain "Successfully updated api status to bogus (150%)")
       /\ Dict.get (components (implementation_status (memory st'))) "api"
          = Some {| status := "bogus"; progress := 150; details := None;
                    cs_lastUpdated := now Sample.quiet |}
       /\ memory_file (disk st') = Some (memory st').
Proof.
  split; [reflexivity|].
  eexists. split; [reflexivity|]. split; reflexivity.
Qed.

(** A progress out of range with a valid status is stored as well. *)
Example handleToolCall_progress_out_of_range :
  let args := JSObject [("component", JSString "api");
                        ("status", JSString "complete");
                        ("progress", JSNumber 150)] in
  spec_validation "update_implementation_status" args
  = Some "Progress must be between 0 and 100"
  /\ exists st',
       handleToolCall Sample.fresh_store Sample.quiet
         "update_implementation_status" args
       = Some (st', Plain "Successfully updated api status to complete (150%)").
Proof. split; [reflexivity | eexists; reflexivity]. Qed.

(** A missing query reaches [searchMemory], whose first statement throws. *)
Example handleToolCall_missing_query :
  spec_validation "search_memory" (JSObject []) = Some "Missing required argument: query"
  /\ handleToolCall Sample.fresh_store Sample.quiet "search_memory" (JSObject [])
     = Some (Sample.fresh_store,
             Plain "Error executing search_memory: Cannot read properties of undefined (reading 'toLowerCase')").
Proof. split; reflexivity. Qed.

(** A limit of 100 is searched with. *)
Example handleToolCall_limit_out_of_range :
  let args := JSObject [("query", JSString "react"); ("limit", JSNumber 100)] in
  spec_validation "search_memory" args = Some "Limit must be between 1 and 50"
  /\ handleToolCall Sample.fresh_store Sample.quiet "search_memory" args
     = Some (Sample.fresh_store, SearchReport "react" 0 []).
Proof. split; reflexivity. Qed.






(** Other falsy values of [confirm], and values of [scope] and
    [create_backup] outside their declared types. *)
Example handleClearMemory_falsy_confirm :
  handleToolCall Sample2.one_decision Sample.quiet "clear_memory"
    (JSObject [("confirm", JSNumber 0); ("scope", JSNumber 5);
               ("create_backup", JSArray [JSString "a"; JSNull; JSNumber 2])])
  = Some (Sample2.one_decision,
          Plain ("‚ö†Ô∏è Memory clear operation requires confirmation. Call again with confirm: true to proceed."
                 +++ nl +++ nl +++ "This will clear: 5"
                 +++ nl +++ "Backup will be created: a,,2"))
  /\ handleToolCall Sample2.one_decision Sample.quiet "clear_memory"
       (JSObject [("confirm", JSString ""); ("scope", JSObject [("a", JSNumber 1)])])
     = Some (Sample2.one_decision,
             Plain ("‚ö†Ô∏è Memory clear operation requires confirmation. Call again with confirm: true to proceed."
                    +++ nl +++ nl +++ "This will clear: [object Object]"
                    +++ nl +++ "Backup will be created: true"))
  /\ handleToolCall Sample2.one_decision Sample.quiet "clear_memory"
       Sample2.scope_with_toString
     = Some (Sample2.one_decision,
             Plain "Error executing clear_memory: Cannot convert object to primitive value")
  /\ handleToolCall Sample2.one_decision Sample.quiet "clear_memory"
       (JSObject [("scope", JSNumber (10 ^ 21))])
     = Some (Sample2.one_decision, Untold).
Proof. repeat split; reflexivity. Qed.

(* ================================================================== *)
(** * Search: a query and a text that both hold an empty token *)

(** C9 at the query ["react "] and a decision ["Use React "]: the
    decision is admitted; the query splits into [react] and the empty
    token, the text into [use], [react], the empty token and [fast]; the
    pair of empty tokens contributes 0/0, and the returned score is NaN,
    which is not at least 10. *)
Theorem searchMemory_NaN_score :
  let results := searchMemory (Sample.with_decisions [Sample.react_trailing]) "react " 10 in
  map data results = [DecisionData Sample.react_trailing]
  /\ Str.split_space "react " = ["react"; ""]
  /\ Str.split_space (Str.toLowerCase (record_text (DecisionData Sample.react_trailing)))
     = ["use"; "react"; ""; "fast"]
  /\ map relevance results = [Num.NaN]
  /\ forallb (fun r => Num.geb (relevance r) Num.ten) results = false.
Proof. repeat split. Qed.

(** C2 at the query ["react "] and three decisions, scanned in this order:
    ["Preact is ok"] scores 10 + 5/6, ["Use React "] scores NaN, and
    ["React is ok"] scores 11.  Every comparison with NaN reads as a tie,
    so nothing moves: the score 10 + 5/6 is returned ahead of the score
    11. *)
Theorem searchMemory_unsorted_with_NaN :
  let results := searchMemory Sample.trailing_space_memory "react " 10 in
  map data results
  = [DecisionData Sample.preact; DecisionData Sample.react_trailing;
     DecisionData Sample.react_plain]
  /\ map relevance results
     = [Num.Fin (7800 # 720); Num.NaN; Num.Fin (5500 # 500)]
  /\ Num.eqb (Num.Fin (7800 # 720)) (Num.Fin (65 # 6)) = true
  /\ Num.eqb (Num.Fin (5500 # 500)) (Num.Fin 11) = true
  /\ Num.ltb (Num.Fin (7800 # 720)) (Num.Fin (5500 # 500)) = true
  /\ descending results = false.
Proof. repeat split. Qed.

(** The edge case of [tests/index.test.ts]: an empty query against an
    empty text scores NaN, where the test expects a number that is at
    least 0. *)
Example calculateRelevance_both_empty :
  calculateRelevance "" "" = Num.NaN
  /\ Num.geb (calculateRelevance "" "") Num.zero = false
  /\ Num.eqb (calculateRelevance "" "some content") Num.ten = true
  /\ Num.eqb (calculateRelevance "query" "") Num.zero = true.
Proof. repeat split. Qed.

(** No order of these three results is descending: NaN is a neighbour of
    something in each of them. *)
Lemma NaN_never_descending (l : list SearchResult) :
  (2 <= List.length l)%nat ->
  Exists (fun r => relevance r = Num.NaN) l ->
  descending l = false.
Proof.
  induction l as [|a l IH]; intros Hlen Hex; [simpl in Hlen; lia|].
  destruct l as [|b l]; [simpl in Hlen; lia|].
  change (descending (a :: b :: l))
    with (Num.geb (relevance a) (relevance b) && descending (b :: l)).
  inversion Hex as [? ? Ha | ? ? Hrest]; subst.
  - rewrite Ha. reflexivity.
  - destruct l as [|c l].
    + inversion Hrest as [? ? Hb | ? ? Hnil]; subst; [|inversion Hnil].
      rewrite Hb. now destruct (relevance a).
    + rewrite IH; [apply andb_false_r | simpl; lia | exact Hrest].
Qed.

(* ================================================================== *)
(** * Further properties: search *)

(** X1: the score that [calculateRelevance] returns is the flat bonus (10
    when the lowercased text contains the query, else 0) to which the
    ratios [len q / len t] of all pairs of a query token [q] and a text
    token [t] containing it are added, query tokens outermost. *)
Theorem calculateRelevance_bonus_plus_ratios (query text : string) :
  calculateRelevance query text
  = fold_left Num.add
      (spec_ratios (Str.split_space query)
                   (Str.split_space (Str.toLowerCase text)))
      (if Str.includes (Str.toLowerCase text) query then Num.ten else Num.zero).
Proof. exact (calculateRelevance_formula query text). Qed.

(** X2: for a query without an empty token and a limit that is not
    negative, [searchMemory] returns the first [limit] entries of a
    rearrangement of the admitted records that is in descending order of
    score and keeps records of equal score in scan order. *)
Theorem searchMemory_ranking (memory : ProjectMemory) (query : string) (limit : Z) :
  Forall (fun w => w <> "") (Str.split_space (Str.toLowerCase query)) ->
  (0 <= limit)%Z ->
  exists ranked,
    Permutation ranked (candidates memory query)
    /\ StronglySorted not_below ranked
    /\ (forall s, with_score s ranked = with_score s (candidates memory query))
    /\ searchMemory memory query limit = firstn (Z.to_nat limit) ranked.
Proof.
  intros Htok Hlim. apply searchMemory_ranked; [|exact Hlim].
  now apply candidates_all_finite.
Qed.

Lemma searchMemory_ranking_witness :
  Forall (fun w => w <> "") (Str.split_space (Str.toLowerCase "React"))
  /\ (0 <= 1)%Z
  /\ exists ranked,
       Permutation ranked (candidates Sample2.two_decisions "React")
       /\ StronglySorted not_below ranked
       /\ (forall s, with_score s ranked
                     = with_score s (candidates Sample2.two_decisions "React"))
       /\ searchMemory Sample2.two_decisions "React" 1 = firstn (Z.to_nat 1) ranked.
Proof.
  assert (H : Forall (fun w => w <> "") (Str.split_space (Str.toLowerCase "React"))).
  { repeat constructor. discriminate. }
  split; [exact H|]. split; [lia|].
  apply (@searchMemory_ranking Sample2.two_decisions "React" 1 H). lia.
Defined.

(** The better match comes first although it is scanned second. *)
Example searchMemory_ranking_example :
  map data (searchMemory Sample2.two_decisions "React" 1)
  = [DecisionData (Sample.decision_of "d2" "React is ok" "known")].
Proof. reflexivity. Qed.

(** X3: every score that [searchMemory] returns is NaN or at least 10, and
    it is finite and at least 10 when the query has no empty token: the
    exact-match bonus applies to every admitted record. *)
Theorem searchMemory_score_floor (memory : ProjectMemory) (query : string)
    (limit : Z) (r : SearchResult) :
  In r (searchMemory memory query limit) ->
  ten_or_NaN (relevance r)
  /\ (Forall (fun w => w <> "") (Str.split_space (Str.toLowerCase query)) ->
      at_least_ten (relevance r)).
Proof.
  intros H. apply searchMemory_in_candidates in H. split.
  - now apply (candidates_ten_or_NaN memory query).
  - intros Htok. now apply (candidates_at_least_ten memory query).
Qed.

Lemma searchMemory_score_floor_witness :
  let r := hit "decision" "react" (DecisionData (Sample.decision_of "d2" "React is ok" "known")) in
  In r (searchMemory Sample2.two_decisions "React" 1)
  /\ ten_or_NaN (relevance r).
Proof.
  cbv zeta.
  assert (H : In (hit "decision" "react"
                    (DecisionData (Sample.decision_of "d2" "React is ok" "known")))
                 (searchMemory Sample2.two_decisions "React" 1)).
  { left. reflexivity. }
  split; [exact H|].
  exact (proj1 (@searchMemory_score_floor Sample2.two_decisions "React" 1 _ H)).
Defined.

Lemma sort_length (A : Type) (cmp : A -> A -> Num.number) (l : list A) :
  List.length (Arr.sort cmp l) = List.length l.
Proof. apply Permutation_length, sort_permutation. Qed.

(** X4: the results are the head of the ranking of the admitted
    records.  With a limit that is not negative they are its first
    [min(limit, admitted)] entries; with a negative limit [-k] they are
    all admitted records but the [k] ranked last (none when fewer than [k]
    are admitted). *)
Theorem searchMemory_length (memory : ProjectMemory) (query : string) (limit : Z) :
  let ranked := Arr.sort by_relevance (candidates memory query) in
  let admitted := List.length (candidates memory query) in
  let results := searchMemory memory query limit in
  exists dropped,
    ranked = results ++ dropped
    /\ ((0 <= limit)%Z ->
        results = firstn (Z.to_nat limit) ranked
        /\ List.length results = Nat.min (Z.to_nat limit) admitted)
    /\ ((limit < 0)%Z ->
        List.length dropped = Nat.min (Z.to_nat (- limit)) admitted
        /\ List.length results = (admitted - Z.to_nat (- limit))%nat).
Proof.
  cbv zeta. unfold searchMemory, Arr.slice_to.
  set (ranked := Arr.sort by_relevance (candidates memory query)).
  assert (L : List.length ranked = List.length (candidates memory query))
    by apply sort_length.
  exists (skipn (Arr.clamp (List.length ranked) limit) ranked).
  split; [now rewrite firstn_skipn|].
  unfold Arr.clamp. split; intros H.
  - destruct (limit <? 0)%Z eqn:E; [apply Z.ltb_lt in E; lia|].
    split.
    + destruct (Z_le_gt_dec limit (Z.of_nat (List.length ranked))) as [K | K].
      * now rewrite Z.min_l by lia.
      * rewrite Z.min_r by lia. rewrite Nat2Z.id.
        rewrite firstn_all. symmetry. apply firstn_all2. lia.
    + rewrite length_firstn, L. lia.
  - destruct (limit <? 0)%Z eqn:E; [|apply Z.ltb_ge in E; lia].
    rewrite length_skipn, length_firstn, L. lia.
Qed.

(** The limit -1 drops the one entry ranked last. *)
Example searchMemory_negative_limit :
  map data (Arr.sort by_relevance (candidates Sample2.two_decisions "react"))
  = [DecisionData (Sample.decision_of "d2" "React is ok" "known");
     DecisionData (Sample.decision_of "d1" "Preact is ok" "small")]
  /\ map data (searchMemory Sample2.two_decisions "react" (-1))
     = [DecisionData (Sample.decision_of "d2" "React is ok" "known")].
Proof. split; reflexivity. Qed.

Lemma filter_all (A : Type) (p : A -> bool) (l : list A) :
  (forall x, p x = true) -> filter p l = l.
Proof.
  intros H. induction l as [|x l IH]; simpl; [reflexivity|].
  now rewrite H, IH.
Qed.

(** X5: the empty query admits every record: all decisions, then all
    solutions, then all conversations, in stored order. *)
Theorem searchMemory_empty_query (memory : ProjectMemory) :
  map data (candidates memory "")
  = map DecisionData (decisions (architecture memory))
    ++ map SolutionData (Dict.values (working_solutions memory))
    ++ map ConversationData (conversations memory).
Proof.
  rewrite candidates_eq. cbv zeta.
  rewrite !filter_all.
  - rewrite !map_app, !map_map. reflexivity.
  - intros c. apply StrFacts.includes_empty.
  - intros x. unfold solution_matches. now rewrite StrFacts.includes_empty.
  - intros d. unfold decision_matches. now rewrite StrFacts.includes_empty.
Qed.

(** X6: a decision just recorded is admitted by every query that occurs,
    up to case, in its decision text, whether or not the save succeeded. *)
Theorem added_decision_is_found (st : Store) (e : Env) (text why query : string)
    (impact : option string) (alternatives : option (list string)) :
  Str.includes (Str.toLowerCase text) (Str.toLowerCase query) = true ->
  exists r,
    In r (candidates (memory (fst (addArchitectureDecision st e text why impact alternatives)))
                     query)
    /\ sr_type r = "decision"
    /\ record_text (data r) = text +++ " " +++ why.
Proof.
  intros H.
  set (d := {| ad_id := generated_id e; decision := text; rationale := why;
               impact := impact; alternatives := alternatives;
               ad_date := now e; ad_tags := Some [] |}).
  exists (hit "decision" (Str.toLowerCase query) (DecisionData d)).
  split; [|split; reflexivity].
  apply candidates_in. left. exists d. split; [|split; [|reflexivity]].
  - unfold addArchitectureDecision. rewrite saveMemory_memory. simpl.
    apply in_or_app. right. now left.
  - unfold decision_matches. simpl. now rewrite H.
Qed.

Lemma added_decision_is_found_witness :
  Str.includes (Str.toLowerCase "Use PostgreSQL") (Str.toLowerCase "postgres") = true
  /\ exists r,
       In r (candidates
               (memory (fst (addArchitectureDecision Sample.fresh_store Sample2.disk_full
                               "Use PostgreSQL" "ACID compliance" None None)))
               "postgres")
       /\ sr_type r = "decision"
       /\ record_text (data r) = "Use PostgreSQL" +++ " " +++ "ACID compliance".
Proof.
  split; [reflexivity|].
  apply (@added_decision_is_found Sample.fresh_store Sample2.disk_full
           "Use PostgreSQL" "ACID compliance" "postgres" None None).
  reflexivity.
Defined.

(* ================================================================== *)
(** * Further properties: the context and the mutators *)

Lemma slice_from_last (A : Type) (l : list A) (n : nat) :
  Arr.slice_from l (- Z.of_nat (S n)) = lastn (S n) l.
Proof.
  unfold Arr.slice_from, Arr.clamp, lastn.
  replace (- Z.of_nat (S n) <? 0)%Z with true by (symmetry; apply Z.ltb_lt; lia).
  f_equal. lia.
Qed.

Lemma lastn_suffix (A : Type) (n : nat) (l : list A) :
  exists older, l = older ++ lastn n l.
Proof. unfold lastn. eexists. symmetry. apply firstn_skipn. Qed.

Lemma lastn_all (A : Type) (n : nat) (l : list A) :
  (List.length l <= n)%nat -> lastn n l = l.
Proof.
  intros H. unfold lastn. now replace (List.length l - n)%nat with O by lia.
Qed.

(** X7: [getCurrentContext] reports at most five decisions and at most
    five conversations, each time the tail of the stored sequence in
    stored order, and the whole sequence when it has five entries or
    fewer. *)
Theorem getCurrentContext_recent (st : Store) :
  let ctx := getCurrentContext st in
  let ds := decisions (architecture (memory st)) in
  let cs := conversations (memory st) in
  List.length (recent_decisions ctx) = Nat.min 5 (List.length ds)
  /\ (exists older, ds = older ++ recent_decisions ctx)
  /\ ((List.length ds <= 5)%nat -> recent_decisions ctx = ds)
  /\ List.length (recent_conversations ctx) = Nat.min 5 (List.length cs)
  /\ (exists older, cs = older ++ recent_conversations ctx)
  /\ ((List.length cs <= 5)%nat -> recent_conversations ctx = cs).
Proof.
  cbv zeta. unfold getCurrentContext. cbn [recent_decisions recent_conversations].
  change (-5)%Z with (- Z.of_nat 5)%Z. rewrite !slice_from_last.
  repeat split.
  - apply lastn_length.
  - apply lastn_suffix.
  - apply lastn_all.
  - apply lastn_length.
  - apply lastn_suffix.
  - apply lastn_all.
Qed.

Lemma dict_get_set_same (T : Type) (o : dict T) (k : string) (v : T) :
  Dict.get (Dict.set o k v) k = Some v.
Proof.
  induction o as [|[k' v'] o IH]; simpl.
  - now rewrite String.eqb_refl.
  - destruct (String.eqb k k') eqn:E; simpl; rewrite ?String.eqb_refl, ?E; auto.
Qed.

Lemma dict_get_set_other (T : Type) (o : dict T) (k k' : string) (v : T) :
  k' <> k -> Dict.get (Dict.set o k v) k' = Dict.get o k'.
Proof.
  intros Hne. induction o as [|[k0 v0] o IH]; simpl.
  - apply String.eqb_neq in Hne. now rewrite Hne.
  - destruct (String.eqb k k0) eqn:E; simpl.
    + apply String.eqb_eq in E. subst k0.
      apply String.eqb_neq in Hne. now rewrite Hne.
    + now rewrite IH.
Qed.

Lemma dict_get_none_keys (T : Type) (o : dict T) (k : string) :
  Dict.get o k = None <-> ~ In k (Dict.keys o).
Proof.
  induction o as [|[k' v'] o IH]; simpl; [tauto|].
  destruct (String.eqb k k') eqn:E.
  - apply String.eqb_eq in E. subst. split; [discriminate | intros H; exfalso; auto].
  - apply String.eqb_neq in E. rewrite IH. split.
    + intros H [H1 | H1]; [congruence | auto].
    + intros H H1. auto.
Qed.

Lemma dict_set_fresh (T : Type) (o : dict T) (k : string) (v : T) :
  Dict.get o k = None -> Dict.set o k v = o ++ [(k, v)].
Proof.
  induction o as [|[k' v'] o IH]; simpl; [reflexivity|].
  destruct (String.eqb k k'); [discriminate|]. intros H. now rewrite IH.
Qed.

Lemma dict_set_keys_present (T : Type) (o : dict T) (k : string) (v : T) :
  In k (Dict.keys o) -> Dict.keys (Dict.set o k v) = Dict.keys o.
Proof.
  induction o as [|[k' v'] o IH]; simpl; [tauto|].
  destruct (String.eqb k k') eqn:E; simpl.
  - apply String.eqb_eq in E. now subst.
  - apply String.eqb_neq in E. intros [H | H]; [congruence|]. now rewrite IH.
Qed.

Lemma dict_set_NoDup (T : Type) (o : dict T) (k : string) (v : T) :
  NoDup (Dict.keys o) -> NoDup (Dict.keys (Dict.set o k v)).
Proof.
  intros H. destruct (in_dec string_dec k (Dict.keys o)) as [Hin | Hout].
  - now rewrite dict_set_keys_present.
  - rewrite dict_set_fresh by now apply dict_get_none_keys.
    unfold Dict.keys in *. rewrite map_app. simpl.
    apply NoDup_app; [exact H | repeat constructor; simpl; tauto |].
    intros x Hx [<- | []]. contradiction.
Qed.

(** X8: after [updateImplementationStatus] for a component whose name is
    not [__proto__] (a name that an assignment takes for the prototype, not
    for a property), the component reads back as exactly the record given
    (progress 0 when omitted, no details when omitted: nothing of an
    earlier record survives), every other component reads back as before,
    and no other section of the memory has changed; this holds whether or
    not the save succeeded. *)
Theorem updateImplementationStatus_reads_back (st : Store) (e : Env)
    (component status : string) (details : option string) (progress : option Z) :
  component <> "__proto__" ->
  let m := memory st in
  let m' := memory (fst (updateImplementationStatus st e component status details progress)) in
  Dict.get (components (implementation_status m')) component
  = Some {| status := status;
            progress := match progress with Some p => p | None => 0%Z end;
            details := details;
            cs_lastUpdated := now e |}
  /\ (forall other, other <> component ->
        Dict.get (components (implementation_status m')) other
        = Dict.get (components (implementation_status m)) other)
  /\ overall_progress (implementation_status m') = overall_progress (implementation_status m)
  /\ architecture m' = architecture m
  /\ working_solutions m' = working_solutions m
  /\ current_priorities m' = current_priorities m
  /\ conversations m' = conversations m
  /\ project_info m' = project_info m.
Proof.
  intros _. cbv zeta. unfold updateImplementationStatus. rewrite saveMemory_memory. simpl.
  split; [apply dict_get_set_same|].
  split; [intros other H; now apply dict_get_set_other|].
  repeat split.
Qed.

Lemma updateImplementationStatus_reads_back_witness :
  let st := Sample.store_of defaultConfig
              (set_components Sample.fresh_memory
                 [("api", {| status := "in_progress"; progress := 40;
                             details := Some "routes"; cs_lastUpdated := "2024-01-01T00:00:00.000Z" |});
                  ("db", {| status := "complete"; progress := 100;
                            details := None; cs_lastUpdated := "2024-01-01T00:00:00.000Z" |})]
                 "unknown") in
  let m' := memory (fst (updateImplementationStatus st Sample.quiet "api" "blocked" None None)) in
  "api" <> "__proto__"
  /\ Dict.get (components (implementation_status m')) "api"
     = Some {| status := "blocked"; progress := 0; details := None;
               cs_lastUpdated := now Sample.quiet |}
  /\ Dict.get (components (implementation_status m')) "db"
     = Some {| status := "complete"; progress := 100;
               details := None; cs_lastUpdated := "2024-01-01T00:00:00.000Z" |}.
Proof.
  cbv zeta.
  assert (H : "api" <> "__proto__") by discriminate.
  split; [exact H|].
  pose proof (@updateImplementationStatus_reads_back
                (Sample.store_of defaultConfig
                   (set_components Sample.fresh_memory
                      [("api", {| status := "in_progress"; progress := 40;
                                  details := Some "routes";
                                  cs_lastUpdated := "2024-01-01T00:00:00.000Z" |});
                       ("db", {| status := "complete"; progress := 100;
                                 details := None;
                                 cs_lastUpdated := "2024-01-01T00:00:00.000Z" |})]
                      "unknown"))
                Sample.quiet "api" "blocked" None None H) as K.
  cbv zeta in K. destruct K as [K1 [K2 _]].
  split; [exact K1|]. rewrite (K2 "db"); [reflexivity | discriminate].
Defined.

Lemma lastn_snoc (A : Type) (n : nat) (l : list A) (x : A) :
  lastn (S n) (l ++ [x]) = lastn n l ++ [x].
Proof.
  unfold lastn. rewrite length_app. simpl.
  replace (List.length l + 1 - S n)%nat with (List.length l - n)%nat by lia.
  rewrite skipn_app.
  replace (List.length l - n - List.length l)%nat with O by lia. reflexivity.
Qed.

(** X10: [addArchitectureDecision] appends: the stored decisions are the
    former ones followed by the new one, which carries the given texts, an
    empty tag list, the generated id and the clock's date; the new decision
    is the last entry of the context's recent decisions. *)
Theorem addArchitectureDecision_appends (st : Store) (e : Env)
    (text why : string) (impact : option string) (alternatives : option (list string)) :
  let st' := fst (addArchitectureDecision st e text why impact alternatives) in
  let d := {| ad_id := generated_id e; decision := text; rationale := why;
              impact := impact; alternatives := alternatives;
              ad_date := now e; ad_tags := Some [] |} in
  decisions (architecture (memory st')) = decisions (architecture (memory st)) ++ [d]
  /\ exists earlier, recent_decisions (getCurrentContext st') = earlier ++ [d].
Proof.
  cbv zeta. unfold getCurrentContext. cbn [recent_decisions].
  unfold addArchitectureDecision. rewrite saveMemory_memory. simpl.
  split; [reflexivity|].
  change (-5)%Z with (- Z.of_nat 5)%Z. rewrite slice_from_last, lastn_snoc.
  now eexists.
Qed.

(** X11: [addWorkingSolution] never merges: under a fresh id the solutions
    are the former ones, untouched, followed by the new one with
    [successCount] 1, even when an older solution states the same problem;
    under an id already in use the new solution takes that entry's place.
    In both cases the id reads back as the new solution and every other id
    as before. *)
Theorem addWorkingSolution_inserts (st : Store) (e : Env)
    (problem solution : string) (command : option string) (tags : option (list string)) :
  let ws := working_solutions (memory st) in
  let ws' := working_solutions (memory (fst (addWorkingSolution st e problem solution command tags))) in
  let s := {| ws_id := generated_id e; problem := problem; solution := solution;
              command := command;
              ws_tags := Some (match tags with Some t => t | None => [] end);
              ws_date := now e; successCount := 1 |} in
  Dict.get ws' (generated_id e) = Some s
  /\ (forall id, id <> generated_id e -> Dict.get ws' id = Dict.get ws id)
  /\ (Dict.get ws (generated_id e) = None -> ws' = ws ++ [(generated_id e, s)])
  /\ (In (generated_id e) (Dict.keys ws) -> Dict.keys ws' = Dict.keys ws).
Proof.
  cbv zeta. unfold addWorkingSolution. rewrite saveMemory_memory. simpl.
  split; [apply dict_get_set_same|].
  split; [intros id H; now apply dict_get_set_other|].
  split; [apply dict_set_fresh | apply dict_set_keys_present].
Qed.

(* ================================================================== *)
(** * Further properties: saving *)

Lemma createBackup_projectRoot (st : Store) (e : BackupEnv) :
  projectRoot (createBackup st e) = projectRoot st.
Proof. unfold createBackup. now destruct (backup_fails e), (backup_written e). Qed.

Lemma getCurrentContext_createBackup (st : Store) (e : BackupEnv) :
  getCurrentContext (createBackup st e) = getCurrentContext st.
Proof.
  unfold getCurrentContext. now rewrite createBackup_memory, createBackup_projectRoot.
Qed.




Lemma saveMemory_succeeds (st : Store) (e : SaveEnv) :
  memory_write_error e = None ->
  context_write_error e = None ->
  snd (saveMemory st e) = Ok tt.
Proof. intros H1 H2. unfold saveMemory. now rewrite H1, H2. Qed.

(** X13: when both writes go through, [saveMemory] succeeds whatever
    happens to the backup, at whichever of its steps it fails, and
    afterwards [project_memory.json] holds exactly the memory and
    [current_context.json] exactly its context.  The backup directory is
    as it was when backups are disabled, and when the backup fails before
    its file is written. *)
Theorem saveMemory_in_sync (st : Store) (e : SaveEnv) :
  memory_write_error e = None ->
  context_write_error e = None ->
  let st' := fst (saveMemory st e) in
  snd (saveMemory st e) = Ok tt
  /\ memory st' = set_last_updated (memory st) (save_now e)
  /\ memory_file (disk st') = Some (memory st')
  /\ context_file (disk st') = Some (getCurrentContext st')
  /\ (backup_enabled (config st) = false
      \/ (backup_fails (save_backup e) = true
          /\ backup_written (save_backup e) = None) ->
      backup_dir (disk st') = backup_dir (disk st)).
Proof.
  intros H1 H2. cbv zeta. unfold saveMemory. rewrite H1, H2. cbn [fst snd].
  destruct (backup_enabled (config _)) eqn:Hb; cbn [config with_disk with_memory] in Hb.
  - split; [reflexivity|].
    rewrite createBackup_memory_file, createBackup_context_file,
            createBackup_memory, getCurrentContext_createBackup.
    split; [reflexivity|]. split; [reflexivity|]. split; [reflexivity|].
    intros [Hf | [Hf Hw]]; [congruence|].
    unfold createBackup. now rewrite Hf, Hw.
  - repeat split.
Qed.

Lemma saveMemory_in_sync_witness :
  memory_write_error Sample2.listing_denied = None
  /\ context_write_error Sample2.listing_denied = None
  /\ snd (saveMemory Sample2.one_decision Sample2.listing_denied) = Ok tt
  /\ memory_file (disk (fst (saveMemory Sample2.one_decision Sample2.listing_denied)))
     = Some (memory (fst (saveMemory Sample2.one_decision Sample2.listing_denied)))
  /\ Dict.keys (backup_dir (disk (fst (saveMemory Sample2.one_decision
                                        Sample2.listing_denied))))
     = ["memory_backup_2024-06-01T12-00-00-003Z.json"].
Proof.
  split; [reflexivity|]. split; [reflexivity|].
  pose proof (@saveMemory_in_sync Sample2.one_decision Sample2.listing_denied
                eq_refl eq_refl) as H.
  cbv zeta in H. destruct H as [H1 [_ [H3 _]]].
  split; [exact H1|]. split; [exact H3|]. reflexivity.
Defined.

(** A backup that fails while it removes old backups has removed some of
    them: of twelve backups and the new one, eleven are left when the
    third removal is rejected. *)
Example createBackup_stops_midway :
  let e := {| backup_now := "2024-06-01T12:00:00.003Z"; backup_fails := true;
              backup_written := Some 2%nat |} in
  List.length (filter is_backup_name
     (Dict.keys (backup_dir (disk (createBackup Sample2.store_with_backups e)))))
  = 11%nat.
Proof. reflexivity. Qed.

(* ================================================================== *)
(** * Further properties: clearing *)

Lemma in_scopes (scope : string) :
  In scope scopes ->
  scope = "all" \/ scope = "decisions" \/ scope = "solutions"
  \/ scope = "conversations" \/ scope = "components".
Proof. simpl. intros [H | [H | [H | [H | [H | []]]]]]; subst; tauto. Qed.

(** X14: [clearMemory] with scope "all" empties every section, names the
    project after the last segment of the project root, and keeps the two
    creation dates whenever they are not empty; the memory is the same
    whether or not the save succeeded. *)
Theorem clearMemory_all_resets (st : Store) (e : Env) (flag : bool) :
  let m := memory st in
  let m' := memory (fst (clearMemory st e "all" flag)) in
  decisions (architecture m') = []
  /\ technologies (architecture m') = []
  /\ working_solutions m' = []
  /\ conversations m' = []
  /\ current_priorities m' = []
  /\ components (implementation_status m') = []
  /\ overall_progress (implementation_status m') = "unknown"
  /\ name (project_info m') = basename (projectRoot st)
  /\ description (project_info m') = ""
  /\ version (metadata m') = "1.0.0"
  /\ (createdAt (project_info m) <> "" ->
      createdAt (project_info m') = createdAt (project_info m))
  /\ (created_at (metadata m) <> "" ->
      created_at (metadata m') = created_at (metadata m)).
Proof.
  cbv zeta. erewrite clearMemory_memory_known by reflexivity.
  assert (Hm : memory (if flag then createBackup st (pre_backup e) else st) = memory st).
  { destruct flag; [apply createBackup_memory | reflexivity]. }
  assert (Hr : projectRoot (if flag then createBackup st (pre_backup e) else st)
               = projectRoot st).
  { destruct flag; [apply createBackup_projectRoot | reflexivity]. }
  unfold cleared_all; simpl. rewrite Hm, Hr.
  repeat split.
  - intros Hne. unfold or_else. apply String.eqb_neq in Hne. now rewrite Hne.
  - intros Hne. unfold or_else. apply String.eqb_neq in Hne. now rewrite Hne.
Qed.

(** X15: for each of the five scopes [clearMemory] fails only when the
    save fails.  When both writes go through it returns the text
    "Successfully cleared <scope> memory", followed by " (backup created)"
    exactly when a backup was asked for, also when that backup failed;
    when the first write is rejected it returns that error. *)
Theorem clearMemory_outcome (st : Store) (e : Env) (scope : string) (flag : bool) :
  In scope scopes ->
  (memory_write_error (save e) = None ->
   context_write_error (save e) = None ->
   snd (clearMemory st e scope flag)
   = Ok ("✅ Successfully cleared " +++ scope +++ " memory"
         +++ (if flag then " (backup created)" else "")))
  /\ (forall err, memory_write_error (save e) = Some err ->
        snd (clearMemory st e scope flag) = Throw err).
Proof.
  intros Hin. apply in_scopes in Hin.
  split.
  - intros H1 H2.
    destruct Hin as [-> | [-> | [-> | [-> | ->]]]];
      unfold clearMemory; cbn [String.eqb Ascii.eqb Bool.eqb andb];
      match goal with
      | |- context [saveMemory ?s ?v] =>
          pose proof (@saveMemory_succeeds s v H1 H2) as K;
          destruct (saveMemory s v) as [st' r];
          cbn [snd] in K; subst r; reflexivity
      end.
  - intros err H.
    destruct Hin as [-> | [-> | [-> | [-> | ->]]]];
      unfold clearMemory, saveMemory; cbn [String.eqb Ascii.eqb Bool.eqb andb];
      rewrite H; reflexivity.
Qed.

Lemma clearMemory_outcome_witness :
  In "decisions" scopes
  /\ snd (clearMemory Sample.fresh_store Sample2.pre_backup_denied "decisions" true)
     = Ok "✅ Successfully cleared decisions memory (backup created)"
  /\ backup_dir (disk (createBackup Sample.fresh_store
                          (pre_backup Sample2.pre_backup_denied))) = [].
Proof.
  assert (H : In "decisions" scopes) by (simpl; tauto).
  split; [exact H|]. split; [|reflexivity].
  exact (proj1 (@clearMemory_outcome Sample.fresh_store Sample2.pre_backup_denied
                  "decisions" true H)
               eq_refl eq_refl).
Defined.

(* ================================================================== *)
(** * Further properties: the conversation cap *)

(** X16: with a configured maximum of at least 1, after
    [logConversationContext] the conversations are the last [max] entries
    of the former sequence followed by the new entry: at most [max] of
    them, the new entry last, entries dropped from the front only. *)
Theorem logConversationContext_keeps_latest (st : Store) (e : Env)
    (summary : string) (dm sf : option (list string)) :
  (1 <= max_conversation_history (config st))%Z ->
  let after := conversations (memory (fst (logConversationContext st e summary dm sf))) in
  (Z.of_nat (List.length after) <= max_conversation_history (config st))%Z
  /\ (exists dropped,
        conversations (memory st) ++ [new_conversation e summary dm sf] = dropped ++ after)
  /\ (exists kept, after = kept ++ [new_conversation e summary dm sf]).
Proof.
  intros Hmax. cbv zeta.
  destruct (@logConversationContext_capped st e summary dm sf Hmax) as [H1 H2].
  split; [exact H1|]. split; [exact H2|].
  rewrite logConversationContext_kept by exact Hmax.
  replace (Z.to_nat (max_conversation_history (config st)))
    with (S (Z.to_nat (max_conversation_history (config st)) - 1)) by lia.
  rewrite lastn_snoc. now eexists.
Qed.

Lemma logConversationContext_keeps_latest_witness :
  (1 <= max_conversation_history (config Sample.fresh_store))%Z
  /\ (Z.of_nat (List.length
        (conversations (memory (fst (logConversationContext Sample.fresh_store
                                       Sample.quiet "first" None None)))))
      <= max_conversation_history (config Sample.fresh_store))%Z.
Proof.
  assert (H : (1 <= max_conversation_history (config Sample.fresh_store))%Z)
    by (simpl; lia).
  split; [exact H|].
  exact (proj1 (@logConversationContext_keeps_latest Sample.fresh_store Sample.quiet
                  "first" None None H)).
Defined.

(** X17: with a configured maximum [N] of at least 1 and a sequence within
    the cap, any run of calls of [logConversationContext] leaves the last
    [N] entries of everything appended, in append order; so [N + 5] calls
    on an empty sequence leave exactly the last [N] entries logged. *)
Theorem log_all_keeps_latest (st : Store) (calls : list (Env * string)) (N : nat) :
  (1 <= N)%nat ->
  max_conversation_history (config st) = Z.of_nat N ->
  (List.length (conversations (memory st)) <= N)%nat ->
  conversations (memory (log_all st calls))
  = lastn N (conversations (memory st)
             ++ map (fun c => new_conversation (fst c) (snd c) None None) calls)
  /\ (conversations (memory st) = [] -> List.length calls = (N + 5)%nat ->
      conversations (memory (log_all st calls))
      = map (fun c => new_conversation (fst c) (snd c) None None) (skipn 5 calls)).
Proof.
  intros HN Hmax Hlen. split.
  - rewrite log_all_kept by (rewrite Hmax; lia). now rewrite Hmax, Nat2Z.id.
  - intros Hempty Hcalls.
    now apply (@log_all_cap_test calls st N HN Hmax Hempty Hcalls).
Qed.

Lemma log_all_keeps_latest_witness :
  (1 <= 2)%nat
  /\ max_conversation_history (config (Sample.store_of Sample2.cap_two Sample.fresh_memory))
     = Z.of_nat 2
  /\ map summary (conversations
                    (memory (log_all (Sample.store_of Sample2.cap_two Sample.fresh_memory)
                                     Sample2.seven_calls)))
     = ["c6"; "c7"].
Proof.
  split; [lia|]. split; [reflexivity|].
  destruct (@log_all_keeps_latest (Sample.store_of Sample2.cap_two Sample.fresh_memory)
              Sample2.seven_calls 2 ltac:(lia) eq_refl ltac:(simpl; lia)) as [_ H].
  rewrite (H eq_refl eq_refl). reflexivity.
Defined.

(* ================================================================== *)
(** * Further properties: loading *)

(** X18: for every input, [validateAndMigrateMemory] returns
    [current_priorities], [architecture.decisions],
    [architecture.technologies] and [conversations] as arrays and
    [working_solutions] as a mapping or an array; it is a mapping whenever
    the input's [working_solutions] is no array.  [last_updated] is the
    time of the call. *)
Theorem validateAndMigrateMemory_containers (st : Store) (e : Env) (memory : JSValue) :
  let out := validateAndMigrateMemory st e memory in
  JS.isArray (l_current_priorities out) = true
  /\ JS.isArray (l_decisions (l_architecture out)) = true
  /\ JS.isArray (l_technologies (l_architecture out)) = true
  /\ JS.isArray (l_conversations out) = true
  /\ (JS.isMapping (l_working_solutions out) = true
      \/ JS.isArray (l_working_solutions out) = true)
  /\ (JS.isArray (JS.get memory "working_solutions") = false ->
      JS.isMapping (l_working_solutions out) = true)
  /\ l_last_updated (l_metadata out) = JSString (now e).
Proof.
  cbv zeta.
  destruct (validateAndMigrateMemory_shapes st e memory) as [H1 [H2 [H3 [H4 H5]]]].
  repeat (split; [assumption|]).
  split; [apply validateAndMigrateMemory_mapping | reflexivity].
Qed.

Lemma get_array_kept (v : JSValue) (k : string) :
  JS.isArray (JS.get v k) = true ->
  (if JS.isArray (JS.opt_get v k) then JS.get v k else JSArray []) = JS.get v k.
Proof.
  intros H. unfold JS.opt_get.
  destruct (JS.nullish v) eqn:N.
  - destruct v; try discriminate; simpl in H; discriminate.
  - now rewrite H.
Qed.

Lemma opt_get_is_get (v : JSValue) (k : string) : JS.opt_get v k = JS.get v k.
Proof. unfold JS.opt_get. destruct v; reflexivity. Qed.

(** X19: sections that have the right shape pass through
    [validateAndMigrateMemory] untouched: an array stays the array it was,
    a [working_solutions] mapping stays the mapping it was, and a project
    name, a version and a creation date that are non-empty strings are
    kept. *)
Theorem validateAndMigrateMemory_keeps_data (st : Store) (e : Env) (memory : JSValue) :
  let out := validateAndMigrateMemory st e memory in
  (JS.isArray (JS.get memory "current_priorities") = true ->
   l_current_priorities out = JS.get memory "current_priorities")
  /\ (JS.isArray (JS.get memory "conversations") = true ->
      l_conversations out = JS.get memory "conversations")
  /\ (JS.isArray (JS.get (JS.get memory "architecture") "decisions") = true ->
      l_decisions (l_architecture out) = JS.get (JS.get memory "architecture") "decisions")
  /\ (JS.isArray (JS.get (JS.get memory "architecture") "technologies") = true ->
      l_technologies (l_architecture out)
      = JS.get (JS.get memory "architecture") "technologies")
  /\ (JS.isMapping (JS.get memory "working_solutions") = true ->
      l_working_solutions out = JS.get memory "working_solutions")
  /\ (forall s, s <> "" ->
        (JS.get (JS.get memory "project_info") "name" = JSString s ->
         l_name (l_project_info out) = JSString s)
        /\ (JS.get (JS.get memory "metadata") "version" = JSString s ->
            l_version (l_metadata out) = JSString s)
        /\ (JS.get (JS.get memory "metadata") "created_at" = JSString s ->
            l_created_at (l_metadata out) = JSString s)).
Proof.
  cbv zeta. unfold validateAndMigrateMemory.
  cbn [l_current_priorities l_conversations l_decisions l_technologies
       l_working_solutions l_architecture l_metadata l_project_info
       l_name l_version l_created_at].
  rewrite !opt_get_is_get.
  repeat split.
  - intros H. now rewrite H.
  - intros H. now rewrite H.
  - intros H. now rewrite H.
  - intros H. now rewrite H.
  - intros H. destruct (JS.get memory "working_solutions"); try discriminate. reflexivity.
  - intros E. rewrite E. unfold JS.or. simpl.
    apply String.eqb_neq in H. now rewrite H.
  - intros E. rewrite E. unfold JS.or. simpl.
    apply String.eqb_neq in H. now rewrite H.
  - intros E. rewrite E. unfold JS.or. simpl.
    apply String.eqb_neq in H. now rewrite H.
Qed.

(** The sample file comes out with its sections as they were. *)
Example validateAndMigrateMemory_keeps_data_example :
  let out := validateAndMigrateMemory Sample.fresh_store Sample.quiet Sample2.well_shaped in
  l_name (l_project_info out) = JSString "shop"
  /\ l_technologies (l_architecture out) = JSArray [JSString "node"]
  /\ l_decisions (l_architecture out) = JSArray []
  /\ l_working_solutions out = JSObject [("k1", JSObject [])]
  /\ l_conversations out = JSArray [JSObject [("summary", JSString "kickoff")]].
Proof. repeat split. Qed.

Lemma validateAndMigrateMemory_default (st : Store) (e : Env) (memory : JSValue) :
  JS.isMapping memory = false ->
  validateAndMigrateMemory st e memory = default_memory st e.
Proof.
  intros H.
  assert (G : forall k, JS.get memory k = JSUndefined).
  { intros k. destruct memory; try reflexivity. discriminate. }
  unfold validateAndMigrateMemory, default_memory.
  rewrite !opt_get_is_get, !G. simpl.
  destruct (auto_detect_project_type (config st)); reflexivity.
Qed.

(** X20: an input that is no plain object ([undefined], [null], a
    boolean, a number, a string, an array) is treated by
    [validateAndMigrateMemory] like the empty object: the result is the
    default structure that [loadMemory] builds when there is no file. *)
Theorem validateAndMigrateMemory_not_an_object (st : Store) (e : Env) (memory : JSValue) :
  JS.isMapping memory = false ->
  validateAndMigrateMemory st e memory = validateAndMigrateMemory st e (JSObject [])
  /\ validateAndMigrateMemory st e memory = default_memory st e.
Proof.
  intros H.
  pose proof (validateAndMigrateMemory_default st e memory H) as E.
  split; [|exact E]. rewrite E.
  unfold validateAndMigrateMemory, default_memory. simpl.
  destruct (auto_detect_project_type (config st)); reflexivity.
Qed.

Lemma validateAndMigrateMemory_not_an_object_witness :
  JS.isMapping (JSArray [JSNumber 1; JSNumber 2]) = false
  /\ validateAndMigrateMemory Sample.fresh_store Sample.quiet (JSArray [JSNumber 1; JSNumber 2])
     = default_memory Sample.fresh_store Sample.quiet.
Proof.
  split; [reflexivity|].
  exact (proj2 (@validateAndMigrateMemory_not_an_object Sample.fresh_store Sample.quiet
                  (JSArray [JSNumber 1; JSNumber 2]) eq_refl)).
Defined.

Lemma basename_from_segment (acc leaf : string) :
  no_slash leaf = true -> basename_from acc leaf = acc +++ leaf.
Proof.
  revert acc. induction leaf as [|c leaf IH]; intros acc H; simpl in *.
  - now rewrite StrFacts.append_empty_r.
  - apply andb_true_iff in H. destruct H as [Hc Hl].
    apply negb_true_iff in Hc. rewrite Hc, IH by exact Hl.
    now rewrite StrFacts.append_assoc.
Qed.

Lemma basename_from_slash (acc parent leaf : string) :
  basename_from acc (parent +++ "/" +++ leaf) = basename_from "" leaf.
Proof.
  revert acc. induction parent as [|c parent IH]; intros acc; simpl.
  - reflexivity.
  - destruct (Ascii.eqb c "/"); apply IH.
Qed.

(** The project name is the last segment of the root. *)
Lemma basename_last_segment (parent leaf : string) :
  no_slash leaf = true -> basename (parent +++ "/" +++ leaf) = leaf.
Proof.
  intros H. unfold basename. rewrite basename_from_slash.
  now rewrite basename_from_segment.
Qed.

(** X21: [loadMemory] gives a complete structure whatever it finds: for a
    missing file, an unreadable file and a file holding anything but a
    plain object it is the default structure, named after the last
    segment of the project root, with version "1.0.0" and empty sections;
    for every file the four sequences are arrays. *)
Theorem loadMemory_always_loads (st : Store) (e : Env) (file : file_read)
    (parent leaf : string) :
  projectRoot st = parent +++ "/" +++ leaf ->
  no_slash leaf = true ->
  JS.isArray (l_current_priorities (loadMemory st e file)) = true
  /\ JS.isArray (l_decisions (l_architecture (loadMemory st e file))) = true
  /\ JS.isArray (l_technologies (l_architecture (loadMemory st e file))) = true
  /\ JS.isArray (l_conversations (loadMemory st e file)) = true
  /\ ((match file with Parsed v => JS.isMapping v = false | _ => True end) ->
      loadMemory st e file = default_memory st e
      /\ l_name (l_project_info (loadMemory st e file)) = JSString leaf
      /\ l_version (l_metadata (loadMemory st e file)) = JSString "1.0.0"
      /\ l_working_solutions (loadMemory st e file) = JSObject []
      /\ l_conversations (loadMemory st e file) = JSArray []).
Proof.
  intros Hroot Hleaf.
  assert (D : l_name (l_project_info (default_memory st e)) = JSString leaf).
  { unfold default_memory. cbn [l_name l_project_info].
    now rewrite Hroot, basename_last_segment. }
  destruct file as [|err|v]; cbn [loadMemory].
  - repeat split; exact D.
  - repeat split; exact D.
  - destruct (validateAndMigrateMemory_shapes st e v) as [H1 [H2 [H3 [H4 _]]]].
    repeat (split; [assumption|]).
    intros Hv. pose proof (validateAndMigrateMemory_default st e v Hv) as E.
    rewrite E. repeat split; exact D.
Qed.

Lemma loadMemory_always_loads_witness :
  projectRoot Sample.fresh_store = "/tmp" +++ "/" +++ "proj"
  /\ no_slash "proj" = true
  /\ l_name (l_project_info (loadMemory Sample.fresh_store Sample.quiet
                               (Unreadable "Unexpected token")))
     = JSString "proj".
Proof.
  split; [reflexivity|]. split; [reflexivity|].
  destruct (@loadMemory_always_loads Sample.fresh_store Sample.quiet
              (Unreadable "Unexpected token") "/tmp" "proj" eq_refl eq_refl)
    as [_ [_ [_ [_ H]]]].
  exact (proj1 (proj2 (H I))).
Defined.

(** X22: [detectProjectType] answers "unknown" exactly when none of the
    eight marker files exists; a [package.json] decides for
    "Node.js/JavaScript" whatever else is there, and a Python marker
    decides for "Python" when there is no [package.json]. *)
Theorem detectProjectType_markers (root : string) (existsSync : string -> bool) :
  (detectProjectType root existsSync = "unknown"
   <-> forallb (fun f => negb (existsSync (path_join root f))) marker_files = true)
  /\ (existsSync (path_join root "package.json") = true ->
      detectProjectType root existsSync = "Node.js/JavaScript")
  /\ (existsSync (path_join root "package.json") = false ->
      existsSync (path_join root "requirements.txt") = true
      \/ existsSync (path_join root "pyproject.toml") = true ->
      detectProjectType root existsSync = "Python").
Proof.
  unfold detectProjectType, marker_files. cbn [forallb].
  destruct (existsSync (path_join root "package.json"));
  destruct (existsSync (path_join root "requirements.txt"));
  destruct (existsSync (path_join root "pyproject.toml"));
  destruct (existsSync (path_join root "Cargo.toml"));
  destruct (existsSync (path_join root "go.mod"));
  destruct (existsSync (path_join root "pom.xml"));
  destruct (existsSync (path_join root "build.gradle"));
  destruct (existsSync (path_join root "docker-compose.yml"));
  cbn; repeat split; try discriminate; try reflexivity;
  intros; try discriminate; try reflexivity;
  repeat match goal with H : _ \/ _ |- _ => destruct H end; discriminate.
Qed.

(** A root with a [package.json] and a [Cargo.toml] is a Node project. *)
Example detectProjectType_example :
  detectProjectType "/tmp/proj" Sample2.node_and_rust = "Node.js/JavaScript"
  /\ detectProjectType "/tmp/proj" (fun _ => false) = "unknown".
Proof. split; reflexivity. Qed.

Lemma lookup_set_same (o : list (string * JSValue)) (k : string) (v : JSValue) :
  JS.lookup (Dict.set o k v) k = v.
Proof.
  induction o as [|[k' v'] o IH]; simpl.
  - now rewrite String.eqb_refl.
  - destruct (String.eqb k k') eqn:E; simpl; rewrite ?String.eqb_refl, ?E; auto.
Qed.

Lemma lookup_set_other (o : list (string * JSValue)) (k k' : string) (v : JSValue) :
  k' <> k -> JS.lookup (Dict.set o k v) k' = JS.lookup o k'.
Proof.
  intros Hne. induction o as [|[k0 v0] o IH]; simpl.
  - apply String.eqb_neq in Hne. now rewrite Hne.
  - destruct (String.eqb k k0) eqn:E; simpl.
    + apply String.eqb_eq in E. subst k0.
      apply String.eqb_neq in Hne. now rewrite Hne.
    + now rewrite IH.
Qed.

Lemma lookup_app (a b : list (string * JSValue)) (k : string) :
  JS.lookup (a ++ b) k = if has_key a k then JS.lookup a k else JS.lookup b k.
Proof.
  induction a as [|[k' v'] a IH]; simpl; [reflexivity|].
  destruct (String.eqb k k'); simpl; [reflexivity | exact IH].
Qed.

Lemma has_key_app (a b : list (string * JSValue)) (k : string) :
  has_key (a ++ b) k = has_key a k || has_key b k.
Proof. unfold has_key. apply existsb_app. Qed.

Lemma has_key_rev (b : list (string * JSValue)) (k : string) :
  has_key (rev b) k = has_key b k.
Proof.
  induction b as [|kv b IH]; simpl; [reflexivity|].
  rewrite has_key_app, IH. simpl. rewrite orb_false_r. apply orb_comm.
Qed.

Lemma has_key_cons (b : list (string * JSValue)) (k k' : string) (v' : JSValue) :
  has_key ((k', v') :: b) k = String.eqb k k' || has_key b k.
Proof. reflexivity. Qed.

(** A spread gives each key the last value the spread object has for it,
    and leaves the keys it does not have as they were. *)
Lemma lookup_spread (a b : list (string * JSValue)) (k : string) :
  JS.lookup (spread a b) k
  = if has_key b k then last_value b k else JS.lookup a k.
Proof.
  unfold spread, last_value. revert a.
  induction b as [|[k' v'] b IH]; intros a; [reflexivity|].
  cbn [fold_left fst snd rev]. rewrite IH, has_key_cons, lookup_app, has_key_rev.
  destruct (has_key b k); [now rewrite orb_true_r|].
  rewrite orb_false_r. cbn [JS.lookup].
  destruct (String.eqb k k') eqn:E.
  - apply String.eqb_eq in E. subst. apply lookup_set_same.
  - apply String.eqb_neq in E. now apply lookup_set_other.
Qed.

(** X23: [loadConfig] starts from the defaults: with no file, with a file
    that cannot be read and with a file holding [null], a boolean or a
    number the configuration is exactly the defaults; with a file holding
    an object every setting the file names has the file's value, unchecked,
    and every setting it does not name keeps its default. *)
Theorem loadConfig_overrides :
  loadConfig Absent = defaultConfig_object
  /\ (forall err, loadConfig (Unreadable err) = defaultConfig_object)
  /\ (forall v, own_properties v = [] -> loadConfig (Parsed v) = defaultConfig_object)
  /\ (forall fields k,
        JS.lookup (loadConfig (Parsed (JSObject fields))) k
        = if has_key fields k then last_value fields k
          else JS.lookup defaultConfig_object k).
Proof.
  split; [reflexivity|]. split; [reflexivity|]. split.
  - intros v H. unfold loadConfig. now rewrite H.
  - intros fields k. apply lookup_spread.
Qed.

(** A file that names one setting changes that one, keeps the others and
    carries its unknown key along. *)
Example loadConfig_example :
  let cfg := loadConfig (Parsed Sample2.short_history) in
  JS.lookup cfg "max_conversation_history" = JSNumber 5
  /\ JS.lookup cfg "backup_enabled" = JSBool true
  /\ JS.lookup cfg "backup_interval" = JSNumber 3600
  /\ JS.lookup cfg "theme" = JSString "dark"
  /\ JS.lookup (loadConfig (Parsed (JSObject [("max_conversation_history", JSString "many")])))
               "max_conversation_history" = JSString "many".
Proof. repeat split. Qed.

(* ================================================================== *)
(** * Further properties: the gateway *)

Lemma not_a_tool (name : string) :
  ~ In name tool_names ->
  String.eqb name "get_project_context" = false
  /\ String.eqb name "update_implementation_status" = false
  /\ String.eqb name "add_architecture_decision" = false
  /\ String.eqb name "add_working_solution" = false
  /\ String.eqb name "update_priorities" = false
  /\ String.eqb name "search_memory" = false
  /\ String.eqb name "log_conversation_context" = false
  /\ String.eqb name "clear_memory" = false.
Proof.
  intros H. repeat split; apply String.eqb_neq; intros ->; apply H; simpl; tauto.
Qed.

(** X24: a tool name outside the eight listed ones is answered with the
    text "Error executing <name>: Unknown tool: <name>", whatever the
    arguments, and the store is left as it was. *)
Theorem handleToolCall_unknown_tool (st : Store) (e : Env) (name : string)
    (args : JSValue) :
  ~ In name tool_names ->
  handleToolCall st e name args
  = Some (st, Plain ("Error executing " +++ name +++ ": Unknown tool: " +++ name)).
Proof.
  intros H. destruct (not_a_tool H) as [H1 [H2 [H3 [H4 [H5 [H6 [H7 H8]]]]]]].
  unfold handleToolCall, dispatch. now rewrite H1, H2, H3, H4, H5, H6, H7, H8.
Qed.

Lemma handleToolCall_unknown_tool_witness :
  ~ In "delete_everything" tool_names
  /\ handleToolCall Sample.fresh_store Sample.quiet "delete_everything" (JSObject [])
     = Some (Sample.fresh_store,
             Plain "Error executing delete_everything: Unknown tool: delete_everything").
Proof.
  assert (H : ~ In "delete_everything" tool_names).
  { simpl. intros K. repeat (destruct K as [K | K]; [discriminate|]). exact K. }
  split; [exact H|].
  exact (@handleToolCall_unknown_tool Sample.fresh_store Sample.quiet
           "delete_everything" (JSObject []) H).
Defined.

(** X25: when the arguments are [undefined] or [null], each of the seven
    tools that take arguments answers with the text of the TypeError that
    destructuring them throws, and leaves the store as it was.  The text
    names the first property of the pattern: "Cannot destructure property
    '<p>' of 'args' as it is <args>." for six of the tools, and "Cannot
    read properties of <args> (reading 'scope')" for [clear_memory], whose
    pattern gives [scope] a default. *)
Theorem handleToolCall_no_arguments (st : Store) (e : Env) (name : string)
    (args : JSValue) :
  In name tool_names ->
  name <> "get_project_context" ->
  JS.nullish args = true ->
  handleToolCall st e name args
  = Some (st, Plain ("Error executing " +++ name +++ ": "
                     +++ no_arguments_error name args)).
Proof.
  intros Hin Hne Hnull. simpl in Hin.
  destruct Hin as [H | [H | [H | [H | [H | [H | [H | [H | []]]]]]]]]; subst name;
    try contradiction;
    unfold handleToolCall, dispatch, no_arguments_error;
    cbn [String.eqb Ascii.eqb Bool.eqb andb first_property];
    unfold handleUpdateImplementationStatus, handleAddArchitectureDecision,
           handleAddWorkingSolution, handleUpdatePriorities, handleSearchMemory,
           handleLogConversationContext, handleClearMemory;
    rewrite Hnull; reflexivity.
Qed.

Lemma handleToolCall_no_arguments_witness :
  In "clear_memory" tool_names
  /\ "clear_memory" <> "get_project_context"
  /\ JS.nullish JSNull = true
  /\ handleToolCall Sample.fresh_store Sample.quiet "clear_memory" JSNull
     = Some (Sample.fresh_store,
             Plain "Error executing clear_memory: Cannot read properties of null (reading 'scope')").
Proof.
  assert (H1 : In "clear_memory" tool_names) by (simpl; tauto).
  assert (H2 : "clear_memory" <> "get_project_context") by discriminate.
  split; [exact H1|]. split; [exact H2|]. split; [reflexivity|].
  exact (@handleToolCall_no_arguments Sample.fresh_store Sample.quiet
           "clear_memory" JSNull H1 H2 eq_refl).
Defined.

(** The seven texts, for [undefined]. *)
Example handleToolCall_no_arguments_texts :
  map (fun name => handleToolCall Sample.fresh_store Sample.quiet name JSUndefined)
      ["update_implementation_status"; "add_architecture_decision";
       "add_working_solution"; "update_priorities"; "search_memory";
       "log_conversation_context"; "clear_memory"]
  = map (fun text => Some (Sample.fresh_store, Plain text))
      ["Error executing update_implementation_status: Cannot destructure property 'component' of 'args' as it is undefined.";
       "Error executing add_architecture_decision: Cannot destructure property 'decision' of 'args' as it is undefined.";
       "Error executing add_working_solution: Cannot destructure property 'problem' of 'args' as it is undefined.";
       "Error executing update_priorities: Cannot destructure property 'priorities' of 'args' as it is undefined.";
       "Error executing search_memory: Cannot destructure property 'query' of 'args' as it is undefined.";
       "Error executing log_conversation_context: Cannot destructure property 'summary' of 'args' as it is undefined.";
       "Error executing clear_memory: Cannot read properties of undefined (reading 'scope')"].
Proof. reflexivity. Qed.

(** X26: the two reading tools return, and never change the store:
    whatever the arguments, [get_project_context] and [search_memory]
    answer with a text and hand the store back as it was, memory and
    files. *)
Theorem reading_tools_change_nothing (st : Store) (e : Env) (name : string)
    (args : JSValue) :
  name = "get_project_context" \/ name = "search_memory" ->
  exists text, handleToolCall st e name args = Some (st, text).
Proof.
  intros [-> | ->]; unfold handleToolCall, dispatch;
    cbn [String.eqb Ascii.eqb Bool.eqb andb].
  - unfold handleGetProjectContext. eexists. reflexivity.
  - unfold handleSearchMemory.
    destruct (JS.nullish args); [eexists; reflexivity|].
    destruct (JS.get args "query"); try (eexists; reflexivity).
    destruct (limit_of _); eexists; reflexivity.
Qed.

Lemma reading_tools_change_nothing_witness :
  ("search_memory" = "get_project_context" \/ "search_memory" = "search_memory")
  /\ exists text,
       handleToolCall Sample2.one_decision Sample.quiet "search_memory"
         (JSObject [("query", JSString "react"); ("limit", JSString "many")])
       = Some (Sample2.one_decision, text).
Proof.
  split; [now right|].
  exact (@reading_tools_change_nothing Sample2.one_decision Sample.quiet
           "search_memory"
           (JSObject [("query", JSString "react"); ("limit", JSString "many")])
           (or_intror eq_refl)).
Defined.

(** A [limit] that is [null] or a boolean is the number [slice] makes of
    it. *)
Example handleSearchMemory_limits :
  let st := Sample2.one_decision in
  let found := searchMemory (memory st) "react" 10 in
  List.length found = 1%nat
  /\ handleToolCall st Sample.quiet "search_memory"
       (JSObject [("query", JSString "react")])
     = Some (st, SearchReport "react" 1 found)
  /\ handleToolCall st Sample.quiet "search_memory"
       (JSObject [("query", JSString "react"); ("limit", JSNull)])
     = Some (st, SearchReport "react" 0 [])
  /\ handleToolCall st Sample.quiet "search_memory"
       (JSObject [("query", JSString "react"); ("limit", JSBool true)])
     = Some (st, SearchReport "react" 1 found)
  /\ handleToolCall st Sample.quiet "search_memory"
       (JSObject [("query", JSNumber 5)])
     = Some (st, Plain "Error executing search_memory: query.toLowerCase is not a function").
Proof. repeat split; reflexivity. Qed.



(** X28: with [confirm: true] the clear tool runs [clearMemory] with the
    given scope and backup flag, "all" and [true] when they are left out:
    the store afterwards is the one [clearMemory] leaves, and the text is
    its message, or "Error executing clear_memory: <error>" when it
    throws, as it does for an unknown scope. *)
Theorem clear_tool_runs_clearMemory (st : Store) (e : Env) (args : JSValue)
    (scope : string) (create_backup : bool) :
  JS.get args "confirm" = JSBool true ->
  JS.default (JS.get args "scope") (JSString "all") = JSString scope ->
  JS.default (JS.get args "create_backup") (JSBool true) = JSBool create_backup ->
  handleToolCall st e "clear_memory" args
  = Some (fst (clearMemory st e scope create_backup),
          Plain (match snd (clearMemory st e scope create_backup) with
                 | Ok text => text
                 | Throw msg => "Error executing clear_memory: " +++ msg
                 end)).
Proof.
  intros Hc Hs Hb.
  assert (Hn : JS.nullish args = false).
  { destruct args; try reflexivity; simpl in Hc; discriminate. }
  unfold handleToolCall, dispatch. cbn [String.eqb Ascii.eqb Bool.eqb andb].
  unfold handleClearMemory. rewrite Hn, Hc, Hs, Hb.
  cbn [JS.default JS.truthy negb JS.as_string JS.as_bool].
  destruct (clearMemory st e scope create_backup) as [st' [text | msg]]; reflexivity.
Qed.

Lemma clear_tool_runs_clearMemory_witness :
  let args := JSObject [("confirm", JSBool true)] in
  JS.get args "confirm" = JSBool true
  /\ JS.default (JS.get args "scope") (JSString "all") = JSString "all"
  /\ JS.default (JS.get args "create_backup") (JSBool true) = JSBool true
  /\ handleToolCall Sample.fresh_store Sample.quiet "clear_memory" args
     = Some (fst (clearMemory Sample.fresh_store Sample.quiet "all" true),
             Plain "✅ Successfully cleared all memory (backup created)").
Proof.
  cbv zeta. split; [reflexivity|]. split; [reflexivity|]. split; [reflexivity|].
  exact (@clear_tool_runs_clearMemory Sample.fresh_store Sample.quiet
           (JSObject [("confirm", JSBool true)]) "all" true eq_refl eq_refl eq_refl).
Defined.

(** An unknown scope comes back as a text, with nothing cleared. *)
Example clear_tool_unknown_scope :
  handleToolCall Sample.fresh_store Sample.quiet "clear_memory"
    (JSObject [("confirm", JSBool true); ("scope", JSString "everything");
               ("create_backup", JSBool false)])
  = Some (Sample.fresh_store,
          Plain "Error executing clear_memory: Unknown scope: everything. Use: all, decisions, solutions, conversations, or components").
Proof. reflexivity. Qed.

(* ================================================================== *)
(** * Further properties: backup retention *)

Lemma leb_iff (a b : string) :
  String.leb a b = true <-> a = b \/ String_as_OT.lt a b.
Proof.
  unfold String.leb. destruct (String.compare a b) eqn:C.
  - apply String_as_OT.cmp_eq in C. tauto.
  - apply String_as_OT.cmp_lt in C. tauto.
  - split; [discriminate|]. intros [-> | H].
    + assert (E : String.compare b b = Eq) by now apply String_as_OT.cmp_eq.
      unfold String_as_OT.cmp in E. congruence.
    + apply String_as_OT.cmp_lt in H. unfold String_as_OT.cmp in H. congruence.
Qed.

Lemma leb_trans (a b c : string) :
  String.leb a b = true -> String.leb b c = true -> String.leb a c = true.
Proof.
  rewrite !leb_iff. intros [-> | H1] [-> | H2]; auto.
  right. exact (@String_as_OT.lt_trans a b c H1 H2).
Qed.

Lemma insert_name_permutation (x : string) (l : list string) :
  Permutation (insert_name x l) (x :: l).
Proof.
  induction l as [|y l IH]; simpl; [reflexivity|].
  destruct (String.leb x y); [reflexivity|].
  rewrite IH. apply perm_swap.
Qed.

Lemma sort_names_permutation (l : list string) : Permutation (sort_names l) l.
Proof.
  induction l as [|x l IH]; simpl; [reflexivity|].
  rewrite insert_name_permutation. now constructor.
Qed.

Lemma insert_name_sorted (x : string) (l : list string) :
  StronglySorted (fun a b => String.leb a b = true) l ->
  StronglySorted (fun a b => String.leb a b = true) (insert_name x l).
Proof.
  intros Hs. induction Hs as [|y l Hs IH Hy]; simpl.
  - repeat constructor.
  - destruct (String.leb x y) eqn:E.
    + constructor; [now constructor|]. constructor; [exact E|].
      rewrite Forall_forall in *. intros z Hz. apply (@leb_trans x y z E). now apply Hy.
    + constructor; [exact IH|].
      apply (Permutation_Forall (Permutation_sym (insert_name_permutation x l))).
      constructor; [|exact Hy].
      destruct (String.leb_total x y) as [H | H]; [congruence | exact H].
Qed.

Lemma sort_names_sorted (l : list string) :
  StronglySorted (fun a b => String.leb a b = true) (sort_names l).
Proof.
  induction l as [|x l IH]; simpl; [constructor | now apply insert_name_sorted].
Qed.

Lemma sorted_split (l : list string) (k : nat) (lo hi : string) :
  StronglySorted (fun a b => String.leb a b = true) l ->
  In lo (firstn k l) -> In hi (skipn k l) -> String.leb lo hi = true.
Proof.
  intros Hs. revert k. induction Hs as [|y l Hs IH Hy]; intros k Hlo Hhi.
  - rewrite firstn_nil in Hlo. contradiction.
  - destruct k as [|k]; [contradiction|]. simpl in Hlo, Hhi.
    destruct Hlo as [<- | Hlo].
    + rewrite Forall_forall in Hy. apply Hy.
      rewrite <- (firstn_skipn k l). apply in_or_app. now right.
    + now apply (IH k).
Qed.

Lemma keys_filter (T : Type) (q : string -> bool) (dir : dict T) :
  Dict.keys (filter (fun entry => q (fst entry)) dir) = filter q (Dict.keys dir).
Proof.
  induction dir as [|[k v] dir IH]; simpl; [reflexivity|].
  destruct (q k); simpl; now rewrite IH.
Qed.

Lemma dict_get_filter (T : Type) (q : string -> bool) (dir : dict T) (k : string) :
  q k = true -> Dict.get (filter (fun entry => q (fst entry)) dir) k = Dict.get dir k.
Proof.
  intros H. induction dir as [|[k' v] dir IH]; simpl; [reflexivity|].
  destruct (String.eqb k k') eqn:E.
  - apply String.eqb_eq in E. subst k'. rewrite H. simpl. now rewrite String.eqb_refl.
  - destruct (q k'); simpl; rewrite ?E; exact IH.
Qed.

Lemma filter_filter_comm (A : Type) (p q : A -> bool) (l : list A) :
  filter p (filter q l) = filter q (filter p l).
Proof.
  induction l as [|x l IH]; simpl; [reflexivity|].
  destruct (p x) eqn:P, (q x) eqn:Q; simpl; rewrite ?P, ?Q, IH; reflexivity.
Qed.

Lemma not_listed_iff (names : list string) (k : string) :
  negb (existsb (String.eqb k) names) = true <-> ~ In k names.
Proof.
  rewrite negb_true_iff. split.
  - intros H Hin. assert (E : existsb (String.eqb k) names = true).
    { apply existsb_exists. exists k. split; [exact Hin | apply String.eqb_refl]. }
    congruence.
  - intros H. destruct (existsb (String.eqb k) names) eqn:E; [|reflexivity].
    apply existsb_exists in E. destruct E as [x [Hx Ex]].
    apply String.eqb_eq in Ex. subst. contradiction.
Qed.

Lemma endsWith_append (a b : string) : Str.endsWith (a +++ b) b = true.
Proof.
  induction a as [|c a IH]; simpl.
  - destruct b; simpl; [reflexivity|]. now rewrite Ascii.eqb_refl, String.eqb_refl.
  - rewrite IH. apply orb_true_r.
Qed.

Lemma backup_name_is_backup (timestamp : string) :
  is_backup_name ("memory_backup_" +++ timestamp +++ ".json") = true.
Proof.
  unfold is_backup_name. apply andb_true_iff. split.
  - apply StrFacts.startsWith_iff. now eexists.
  - rewrite <- StrFacts.append_assoc. apply endsWith_append.
Qed.

(** What [createBackup] leaves in the backup directory, as a function of
    the directory once the new file is written. *)
Lemma createBackup_dir (st : Store) (e : BackupEnv) :
  backup_fails e = false ->
  let written := Dict.set (backup_dir (disk st))
                   ("memory_backup_" +++ Str.replace_colon_dot (backup_now e) +++ ".json")
                   (memory st) in
  let ranked := rev (sort_names (filter is_backup_name (Dict.keys written))) in
  backup_dir (disk (createBackup st e))
  = if (10 <? List.length ranked)%nat
    then filter (fun entry => negb (existsb (String.eqb (fst entry)) (skipn 10 ranked)))
                written
    else written.
Proof.
  intros H. cbv zeta. unfold createBackup. rewrite H. cbn [backup_dir disk with_disk].
  destruct (10 <? _)%nat eqn:E; [|reflexivity].
  apply Nat.ltb_lt in E. unfold remove_files, Arr.slice_from, Arr.clamp.
  cbn [Z.ltb Z.compare]. rewrite Z.min_l by lia. reflexivity.
Qed.

(** X29: a backup that does not fail leaves at most ten backup files in a
    directory whose file names are distinct; every backup file it removed
    is named no later than every backup file it kept; files that are not
    backups are untouched; and with ten backup files or fewer after the
    write nothing is removed. *)
Theorem createBackup_retention (st : Store) (e : BackupEnv) :
  NoDup (Dict.keys (backup_dir (disk st))) ->
  backup_fails e = false ->
  let written := Dict.set (backup_dir (disk st))
                   ("memory_backup_" +++ Str.replace_colon_dot (backup_now e) +++ ".json")
                   (memory st) in
  let after := backup_dir (disk (createBackup st e)) in
  (List.length (filter is_backup_name (Dict.keys after)) <= 10)%nat
  /\ NoDup (Dict.keys after)
  /\ (forall kept removed,
        In kept (Dict.keys after) -> is_backup_name kept = true ->
        In removed (Dict.keys written) -> ~ In removed (Dict.keys after) ->
        String.leb removed kept = true)
  /\ (forall f, is_backup_name f = false ->
        Dict.get after f = Dict.get (backup_dir (disk st)) f)
  /\ ((List.length (filter is_backup_name (Dict.keys written)) <= 10)%nat ->
      after = written).
Proof.
  intros Hnd Hok. cbv zeta. rewrite (@createBackup_dir st e Hok). cbv zeta.
  set (new := "memory_backup_" +++ Str.replace_colon_dot (backup_now e) +++ ".json").
  set (written := Dict.set (backup_dir (disk st)) new (memory st)).
  set (B := filter is_backup_name (Dict.keys written)).
  set (S := sort_names B).
  assert (Hw : NoDup (Dict.keys written)) by now apply dict_set_NoDup.
  assert (HB : NoDup B) by now apply NoDup_filter.
  assert (HSB : Permutation S B) by apply sort_names_permutation.
  assert (Hlen : List.length (rev S) = List.length B).
  { rewrite length_rev. now apply Permutation_length. }
  assert (Hnew : forall f, is_backup_name f = false -> f <> new).
  { intros f Hf ->. unfold new in Hf. rewrite backup_name_is_backup in Hf. discriminate. }
  destruct (10 <? List.length (rev S))%nat eqn:E.
  - apply Nat.ltb_lt in E.
    set (R := skipn 10 (rev S)).
    set (q := fun k => negb (existsb (String.eqb k) R)).
    change (filter (fun entry => negb (existsb (String.eqb (fst entry)) R)) written)
      with (filter (fun entry => q (fst entry)) written).
    rewrite keys_filter.
    assert (HR : forall x, In x R -> In x B).
    { intros x Hx. apply (Permutation_in _ HSB). apply in_rev.
      rewrite <- (firstn_skipn 10 (rev S)). apply in_or_app. now right. }
    assert (Hkept : forall x, In x B -> q x = true -> In x (firstn 10 (rev S))).
    { intros x Hx Hq. apply not_listed_iff in Hq.
      assert (Hin : In x (rev S)).
      { apply in_rev. rewrite rev_involutive. now apply (Permutation_in _ (Permutation_sym HSB)). }
      rewrite <- (firstn_skipn 10 (rev S)) in Hin.
      apply in_app_or in Hin. destruct Hin as [Hin | Hin]; [exact Hin | contradiction]. }
    split; [|split; [|split; [|split]]].
    + rewrite filter_filter_comm. fold B.
      apply Nat.le_trans with (List.length (firstn 10 (rev S))).
      * apply NoDup_incl_length; [now apply NoDup_filter|].
        intros x Hx. apply filter_In in Hx. destruct Hx as [Hx Hq]. now apply Hkept.
      * apply firstn_le_length.
    + now apply NoDup_filter.
    + intros kept removed Hk Hkb Hr Hnr.
      apply filter_In in Hk. destruct Hk as [Hk Hq].
      assert (HkB : In kept B) by (apply filter_In; split; assumption).
      pose proof (Hkept kept HkB Hq) as Hfirst.
      assert (Hrem : In removed R).
      { destruct (in_dec string_dec removed R) as [H | H]; [exact H|].
        exfalso. apply Hnr. apply filter_In. split; [exact Hr|]. now apply not_listed_iff. }
      unfold R in Hrem. rewrite skipn_rev, <- in_rev in Hrem.
      rewrite firstn_rev, <- in_rev in Hfirst.
      exact (@sorted_split S (List.length S - 10) removed kept (sort_names_sorted B) Hrem Hfirst).
    + intros f Hf. rewrite dict_get_filter.
      * unfold written. apply dict_get_set_other. now apply Hnew.
      * apply not_listed_iff. intros Hin. apply HR in Hin.
        apply filter_In in Hin. destruct Hin as [_ Hin]. congruence.
    + intros Hle. fold B in Hle. lia.
  - split; [|split; [|split; [|split]]].
    + fold B. apply Nat.ltb_ge in E. lia.
    + exact Hw.
    + intros kept removed _ _ Hr Hnr. contradiction.
    + intros f Hf. unfold written. apply dict_get_set_other. now apply Hnew.
    + reflexivity.
Qed.

Lemma createBackup_retention_witness :
  NoDup (Dict.keys (backup_dir (disk Sample2.store_with_backups)))
  /\ backup_fails (pre_backup Sample.quiet) = false
  /\ (List.length (filter is_backup_name
        (Dict.keys (backup_dir (disk (createBackup Sample2.store_with_backups
                                        (pre_backup Sample.quiet))))))
      <= 10)%nat.
Proof.
  assert (H : NoDup (Dict.keys (backup_dir (disk Sample2.store_with_backups)))).
  { apply (NoDup_count_occ' string_dec). intros x Hx. simpl in Hx.
    repeat (destruct Hx as [<- | Hx]; [reflexivity|]). contradiction. }
  split; [exact H|]. split; [reflexivity|].
  exact (proj1 (@createBackup_retention Sample2.store_with_backups
                  (pre_backup Sample.quiet) H eq_refl)).
Defined.

(** Thirteen backups and a note: the three oldest backups go, the note
    stays. *)
Example createBackup_retention_example :
  let after := Dict.keys (backup_dir (disk (createBackup Sample2.store_with_backups
                                             (pre_backup Sample.quiet)))) in
  List.length after = 11%nat
  /\ existsb (String.eqb "notes.txt") after = true
  /\ existsb (String.eqb "memory_backup_2024-06-01T12-00-00-001Z.json") after = true
  /\ existsb (String.eqb "memory_backup_2024-05-03T00-00-00-000Z.json") after = false
  /\ existsb (String.eqb "memory_backup_2024-05-04T00-00-00-000Z.json") after = true.
Proof. repeat split. Qed.
